(** * pyqubo [setup.py]: the CMake build driver and the test command

    A shallow embedding of [setup.py]: the table [PLAT_TO_CMAKE], the class
    [CMakeExtension], the method [CMakeBuild.build_extension] and the method
    [GoogleTestCommand.run], followed by the properties of the build and
    test sequence that the specification states about them.

    Python values are modelled as follows.
    - [str] is [string], read as a sequence of code points below 256;
    - a [dict] with string keys ([PLAT_TO_CMAKE], [os.environ], the literal
      table of the OpenMP switch) is a [gmap string _];
    - a list of arguments is a [list string];
    - a raised exception is the [Raise] case of [result];
    - everything the script asks of its host (environment, platform name,
      the [ninja] import probe, the file system, child processes, the
      inherited test runner) is answered by a [Host] record, and every
      visible action is logged as an [event]. *)

From Stdlib Require Import ZArith Ascii String DecimalString.
From stdpp Require Import base option list gmap strings.
From Equations Require Import Equations.

(** ** Python string methods *)

Module Str.

(** [s.startswith(p)] *)
Definition startswith (s p : string) : bool := String.prefix p s.

(** [s.endswith(suf)]: some tail of [s] is [suf]. *)
Fixpoint endswith (s suf : string) : bool :=
  String.eqb s suf ||
  match s with
  | EmptyString => false
  | String _ s' => endswith s' suf
  end.

(** [needle in s]: [needle] is a prefix of some tail of [s]. *)
Fixpoint contains (s needle : string) : bool :=
  String.prefix needle s ||
  match s with
  | EmptyString => false
  | String _ s' => contains s' needle
  end.

(** [bool(s)]: only the empty string is falsy. *)
Definition truthy (s : string) : bool :=
  match s with EmptyString => false | String _ _ => true end.

(** [c.upper()] on the ASCII letters; the script upper-cases only the
    configuration names ["Debug"] and ["Release"]. *)
Definition upper_char (c : ascii) : ascii :=
  let n := nat_of_ascii c in
  if (97 <=? n)%nat && (n <=? 122)%nat then ascii_of_nat (n - 32) else c.

Fixpoint upper (s : string) : string :=
  match s with
  | EmptyString => EmptyString
  | String c s' => String (upper_char c) (upper s')
  end.

(** [sep.join(parts)] *)
Definition join (sep : string) (parts : list string) : string :=
  String.concat sep parts.

(** [s.split(c)] for a separator of one character: never empty, one more
    field than there are separators. *)
Fixpoint split (c : ascii) (s : string) : list string :=
  match s with
  | EmptyString => [EmptyString]
  | String a s' =>
      if Ascii.eqb a c then EmptyString :: split c s'
      else match split c s' with
           | h :: t => String a h :: t
           | [] => [String a EmptyString]
           end
  end.

(** [str(n)] / ["{}".format(n)] for an [int]. *)
Definition of_Z (n : Z) : string := NilZero.string_of_int (Z.to_int n).

(** [c.isspace()] as the [re] module's [\s] decides it for a [str]
    pattern, on the code points below 256: TAB..CR, FS..US, SPACE, NEL,
    NBSP. *)
Definition isspace (c : ascii) : bool :=
  let n := nat_of_ascii c in
  ((9 <=? n)%nat && (n <=? 13)%nat) || ((28 <=? n)%nat && (n <=? 32)%nat)
  || (n =? 133)%nat || (n =? 160)%nat.

(** [all(c.isspace() for c in s)] *)
Fixpoint blank (s : string) : bool :=
  match s with
  | EmptyString => true
  | String c s' => isspace c && blank s'
  end.

(** [all(not c.isspace() for c in s)] *)
Fixpoint nospace (s : string) : bool :=
  match s with
  | EmptyString => true
  | String c s' => negb (isspace c) && nospace s'
  end.

End Str.

(** ** Exceptions, results, events *)

Inductive exn : Type :=
| KeyError (key : string)
| UnboundLocalError (name : string)
| CalledProcessError (returncode : Z) (cmd : list string)
| OSError (what : string)
| DistutilsError (msg : string).

Inductive result (A : Type) : Type :=
| Ok (a : A)
| Raise (e : exn).
Arguments Ok {A} a.
Arguments Raise {A} e.

Inductive event : Type :=
| EvPrint (text : string)
| EvMakedirs (path : string)
| EvSpawn (argv : list string) (cwd : string) (shell : bool)
| EvSuperRun.

(** What a child process did: it could not be started, or it ran and left
    an exit status. *)
Inductive child : Type :=
| NotStarted (e : exn)
| Exited (status : Z).

(** The host of one run of the script. *)
Record Host : Type := mkHost {
  sys_platform : string;
  sys_executable : string;
  os_environ : gmap string string;
  ninja_importable : bool;
  os_path_exists : string → bool;
  os_makedirs : string → option exn;
  run_child : list string → string → bool → child;
  super_run : option exn
}.

(** ** The monad of the script: read the host, log events, maybe raise *)

Definition M (A : Type) : Type := Host → list event * result A.

Definition raise {A} (e : exn) : M A := λ _, ([], Raise e).
Definition lift {A} (r : result A) : M A := λ _, ([], r).
Definition ask {A} (f : Host → A) : M A := λ h, ([], Ok (f h)).
Definition emit (e : event) : M unit := λ _, ([e], Ok tt).

#[global] Instance M_ret : MRet M := λ A a _, ([], Ok a).
#[global] Instance M_bind : MBind M := λ A B k m h,
  match m h with
  | (tr, Ok a) => let '(tr', r) := k a h in (tr ++ tr', r)
  | (tr, Raise e) => (tr, Raise e)
  end.

(** The trace and the outcome of a run. *)
Definition trace_of {A} (m : M A) (h : Host) : list event := (m h).1.
Definition outcome_of {A} (m : M A) (h : Host) : result A := (m h).2.

(** The exit status the interpreter reports for the script: an exception
    that reaches the top ends the process with a nonzero status. *)
Definition exit_status {A} (r : result A) : Z :=
  match r with Ok _ => 0 | Raise _ => 1 end.

(** ** [os.path] *)

(** The interface of [os.path] that the script uses; which implementation
    answers depends on the host ([posixpath] or [ntpath]). *)
Class OsPath : Type := {
  sep : string;
  abspath : string → string;
  dirname : string → string;
  join : string → string → string
}.

(** ** [PLAT_TO_CMAKE] (lines 16-21) *)

(** Converts distutils Windows platform specifiers to CMake [-A]
    arguments. *)
Definition PLAT_TO_CMAKE : gmap string string :=
  <["win32" := "Win32"]> (<["win-amd64" := "x64"]>
  (<["win-arm32" := "ARM"]> (<["win-arm64" := "ARM64"]> ∅))).

(** [d[k]]: a missing key raises [KeyError(k)]. *)
Definition subscript {V} (d : gmap string V) (k : string) : result V :=
  match d !! k with
  | Some v => Ok v
  | None => Raise (KeyError k)
  end.

Arguments subscript : simpl never.

(** ** [CMakeExtension] (lines 26-29) *)

(** The attributes of a setuptools [Extension] that the script sets,
    and [sourcedir]. *)
Record CMakeExtension : Type := mkExt {
  ext_name : string;
  ext_sources : list string;
  ext_sourcedir : string
}.

(** [CMakeExtension.__init__(self, name, sourcedir="")]; [None] stands
    for an omitted second argument. *)
Definition CMakeExtension_init `{OsPath} (name : string)
    (sourcedir : option string) : CMakeExtension :=
  let sourcedir := default "" sourcedir in
  {| ext_name := name;
     ext_sources := [];
     ext_sourcedir := abspath sourcedir |}.

(** ** [re.findall(r"-arch (\S+)", s)] (line 96) *)

(** [s] without its prefix [p], if it starts with [p]. *)
Fixpoint strip_prefix (p s : string) : option string :=
  match p, s with
  | EmptyString, _ => Some s
  | String a p', String b s' =>
      if Ascii.eqb a b then strip_prefix p' s' else None
  | String _ _, EmptyString => None
  end.

(** The longest run of non-space characters at the start of [s], and what
    follows it: the greedy [\S+] (or nothing). *)
Fixpoint span_nospace (s : string) : string * string :=
  match s with
  | EmptyString => (EmptyString, EmptyString)
  | String c s' =>
      if Str.isspace c then (EmptyString, s)
      else let '(v, r) := span_nospace s' in (String c v, r)
  end.

(** One attempt of the pattern at the start of [s]: group 1 and the text
    after the match. The group needs one character at least. *)
Definition match_arch (s : string) : option (string * string) :=
  match strip_prefix "-arch " s with
  | Some r =>
      match span_nospace r with
      | (EmptyString, _) => None
      | (v, r') => Some (v, r')
      end
  | None => None
  end.

Lemma strip_prefix_length p s r :
  strip_prefix p s = Some r →
  String.length s = (String.length p + String.length r)%nat.
Proof.
  revert s; induction p as [|a p IH]; intros [|b s]; simpl;
    try congruence.
  - intros [= <-]. reflexivity.
  - intros [= <-]. reflexivity.
  - destruct (Ascii.eqb a b); [|congruence].
    intros Hr. by rewrite (IH _ Hr).
Qed.

Lemma span_nospace_length s :
  (String.length (span_nospace s).2 ≤ String.length s)%nat.
Proof.
  induction s as [|c s IH]; simpl; [lia|].
  destruct (Str.isspace c); simpl; [lia|].
  destruct (span_nospace s) as [v r]; simpl in *. lia.
Qed.

Lemma match_arch_length s v r :
  match_arch s = Some (v, r) → (String.length r < String.length s)%nat.
Proof.
  unfold match_arch.
  destruct (strip_prefix "-arch " s) as [r0|] eqn:Hp; [|done].
  apply strip_prefix_length in Hp. simpl in Hp.
  pose proof (span_nospace_length r0) as Hl.
  destruct (span_nospace r0) as [[|c v'] r']; [done|].
  intros [= <- <-]. simpl in Hl. lia.
Qed.

(** All matches, left to right, the search resuming where the last match
    ended; a position without a match is skipped. *)
Equations? findall_arch (s : string) : list string
    by wf (String.length s) lt :=
  findall_arch EmptyString := [];
  findall_arch (String c s') with Logic.inspect (match_arch (String c s')) := {
    | exist _ (Some (v, rest)) Hm := v :: findall_arch rest;
    | exist _ None _ := findall_arch s' }.
Proof.
  by apply match_arch_length in Hm.
Qed.

Arguments findall_arch : simpl never.

(** ** Host primitives *)

(** [os.makedirs(path)] *)
Definition makedirs (path : string) : M unit := λ h,
  ([EvMakedirs path],
   match os_makedirs h path with Some e => Raise e | None => Ok tt end).

(** [subprocess.call(argv, cwd=cwd, shell=shell)]: the exit status of the
    child is the value of the call. *)
Definition subprocess_call (argv : list string) (cwd : string)
    (shell : bool) : M Z := λ h,
  ([EvSpawn argv cwd shell],
   match run_child h argv cwd shell with
   | NotStarted e => Raise e
   | Exited status => Ok status
   end).

(** [subprocess.check_call(argv, cwd=cwd)]: a nonzero exit status raises
    [CalledProcessError]. *)
Definition subprocess_check_call (argv : list string) (cwd : string) : M Z :=
  status ← subprocess_call argv cwd false;
  if (status =? 0)%Z then mret 0%Z
  else raise (CalledProcessError status argv).

(** [print(text)] *)
Definition print (text : string) : M unit := emit (EvPrint text).

(** ** [CMakeBuild.build_extension] (lines 32-117) *)

(** [self.parallel], read through [hasattr(self, "parallel")]. *)
Inductive pyattr : Type :=
| NoAttr
| PyNone
| PyInt (n : Z).

(** [hasattr(self, "parallel") and self.parallel], as a truth value with
    the number it stands on. *)
Definition requested_jobs (p : pyattr) : option Z :=
  match p with
  | PyInt n => if (n =? 0)%Z then None else Some n
  | _ => None
  end.

(** The attributes of the [build_ext] command that the method reads. *)
Record CMakeBuild : Type := mkBuild {
  get_ext_fullpath : string → string;
  debug : bool;
  compiler_type : string;
  plat_name : string;
  parallel : pyattr;
  build_temp : string;
  get_version : string
}.

Section BuildDriver.
Context `{OsPath}.

(** Lines 33-37: the output directory, with a separator at its end. *)
Definition with_trailing_sep (extdir : string) : string :=
  if negb (Str.endswith extdir sep) then extdir +:+ sep else extdir.

Definition output_dir (self : CMakeBuild) (ext : CMakeExtension) : string :=
  with_trailing_sep (abspath (dirname (get_ext_fullpath self (ext_name ext)))).

(** Line 39. *)
Definition config_name (self : CMakeBuild) : string :=
  if debug self then "Debug" else "Release".

(** Lines 48-53. *)
Definition baseline_args (extdir executable version cfg : string)
    : list string :=
  [ "-DCMAKE_LIBRARY_OUTPUT_DIRECTORY=" +:+ extdir;
    "-DPYTHON_EXECUTABLE=" +:+ executable;
    "-DPYQUBO_VERSION_INFO=" +:+ version;
    "-DCMAKE_BUILD_TYPE=" +:+ cfg ].

(** Line 73. *)
Definition single_config (cmake_generator : string) : bool :=
  existsb (λ x, Str.contains cmake_generator x) ["NMake"; "Ninja"].

(** Line 76. *)
Definition contains_arch (cmake_generator : string) : bool :=
  existsb (λ x, Str.contains cmake_generator x) ["ARM"; "Win64"].

(** Lines 56-89: the branch on the compiler. [ninja] tells whether
    [import ninja] succeeds. *)
Definition toolchain_branch (self : CMakeBuild)
    (cmake_generator cfg extdir : string) (ninja : bool)
    (cmake_args build_args : list string)
    : result (list string * list string) :=
  if negb (String.eqb (compiler_type self) "msvc") then
    if negb (Str.truthy cmake_generator) then
      if ninja then Ok (cmake_args ++ ["-GNinja"], build_args)
      else Ok (cmake_args, build_args)
    else Ok (cmake_args, build_args)
  else
    let single_config := single_config cmake_generator in
    let contains_arch := contains_arch cmake_generator in
    match
      (if negb single_config && negb contains_arch then
         match subscript PLAT_TO_CMAKE (plat_name self) with
         | Ok arch => Ok (cmake_args ++ ["-A"; arch])
         | Raise e => Raise e
         end
       else Ok cmake_args)
    with
    | Raise e => Raise e
    | Ok cmake_args =>
        if negb single_config then
          Ok (cmake_args ++
                ["-DCMAKE_LIBRARY_OUTPUT_DIRECTORY_" +:+ Str.upper cfg
                   +:+ "=" +:+ extdir],
              build_args ++ ["--config"; cfg])
        else Ok (cmake_args, build_args)
    end.

(** Line 93: the literal table of the OpenMP switch, subscripted by
    [os.getenv('USE_OMP', 'False')]. *)
Definition USE_OMP_TABLE : gmap string bool :=
  <["True" := true]> (<["False" := false]> ∅).

Definition use_omp (environ : gmap string string) : result bool :=
  subscript USE_OMP_TABLE (default "False" (environ !! "USE_OMP")).

(** Lines 96-98: [ARCHFLAGS]. *)
Definition archflags_branch (environ : gmap string string)
    (cmake_args : list string) : list string :=
  let archs := findall_arch (default "" (environ !! "ARCHFLAGS")) in
  match archs with
  | [] => cmake_args
  | _ :: _ =>
      cmake_args ++ ["-DCMAKE_OSX_ARCHITECTURES=" +:+ Str.join ";" archs]
  end.

(** Lines 91-98: the branch on the operating system. Line 94 adds to
    [cmake_wargs], a name that is bound nowhere in the method: reading
    it raises [UnboundLocalError]. *)
Definition darwin_branch (platform : string)
    (environ : gmap string string) (cmake_args : list string)
    : result (list string) :=
  if Str.startswith platform "darwin" then
    match use_omp environ with
    | Raise e => Raise e
    | Ok omp =>
        if negb omp then Raise (UnboundLocalError "cmake_wargs")
        else Ok (archflags_branch environ cmake_args)
    end
  else Ok cmake_args.

(** Lines 102-107. *)
Definition parallel_branch (self : CMakeBuild)
    (environ : gmap string string) (build_args : list string)
    : list string :=
  match environ !! "CMAKE_BUILD_PARALLEL_LEVEL" with
  | None =>
      match requested_jobs (parallel self) with
      | Some n => build_args ++ ["-j" +:+ Str.of_Z n]
      | None => build_args
      end
  | Some _ => build_args
  end.

(** Lines 33-107: both argument lists, as they stand before the build
    directory is made. *)
Definition assemble_args (self : CMakeBuild) (ext : CMakeExtension)
    : M (list string * list string) :=
  let extdir := output_dir self ext in
  let cfg := config_name self in
  environ ← ask os_environ;
  let cmake_generator := default "" (environ !! "CMAKE_GENERATOR") in
  executable ← ask sys_executable;
  let cmake_args := baseline_args extdir executable (get_version self) cfg in
  let build_args := [] in
  ninja ← ask ninja_importable;
  '(cmake_args, build_args) ←
    lift (toolchain_branch self cmake_generator cfg extdir ninja
            cmake_args build_args);
  platform ← ask sys_platform;
  cmake_args ← lift (darwin_branch platform environ cmake_args);
  let build_args := parallel_branch self environ build_args in
  mret (cmake_args, build_args).

(** The whole method. *)
Definition build_extension (self : CMakeBuild) (ext : CMakeExtension)
    : M unit :=
  '(cmake_args, build_args) ← assemble_args self ext;
  present ← ask (λ h, os_path_exists h (build_temp self));
  (if negb present then makedirs (build_temp self) else mret tt);;
  subprocess_check_call (["cmake"; ext_sourcedir ext] ++ cmake_args)
    (build_temp self);;
  subprocess_check_call (["cmake"; "--build"; "."] ++ build_args)
    (build_temp self);;
  mret tt.

(** ** [GoogleTestCommand.run] (lines 137-146) *)

(** [self.cpplibdir] is the one attribute that [run] reads; it is set
    by [initialize_options] and is taken as given here. *)
Record GoogleTestCommand : Type := mkTest { cpplibdir : string }.

(** [super(GoogleTestCommand, self).run()]: the inherited runner of the
    Python tests, which returns or raises as the host decides. *)
Definition TestCommand_run : M unit := λ h,
  ([EvSuperRun],
   match super_run h with Some e => Raise e | None => Ok tt end).

Definition nl : string := String (ascii_of_nat 10) EmptyString.

Definition GoogleTestCommand_run (self : GoogleTestCommand) : M unit :=
  TestCommand_run;;
  print (nl +:+ "Python tests complete, now running C++ tests..."
           +:+ nl);;
  print (join "build/" (cpplibdir self));;
  subprocess_call ["make pyqubo_test"] (join "build" (cpplibdir self))
    true;;
  subprocess_call ["./tests/pyqubo_test"] (join "build" (cpplibdir self))
    true;;
  mret tt.

End BuildDriver.

(** ** [posixpath]: the [os.path] of a POSIX host *)

Module posixpath.

Definition slash : ascii := ascii_of_nat 47.

(** [isabs(s)] *)
Definition isabs (s : string) : bool := Str.startswith s "/".

(** [join(a, b)] *)
Definition join (a b : string) : string :=
  if Str.startswith b "/" then b
  else if negb (Str.truthy a) || Str.endswith a "/" then a +:+ b
  else a +:+ "/" +:+ b.

(** POSIX allows one or two initial slashes, but treats three or more
    as a single slash. *)
Definition initial_slashes (path : string) : nat :=
  if Str.startswith path "/" then
    if Str.startswith path "//" && negb (Str.startswith path "///")
    then 2 else 1
  else 0.

(** One turn of the loop of [normpath] over the components. *)
Definition normpath_step (initial_slashes : nat)
    (new_comps : list string) (comp : string) : list string :=
  if String.eqb comp "" || String.eqb comp "." then new_comps
  else if negb (String.eqb comp "..")
          || ((initial_slashes =? 0)%nat && bool_decide (new_comps = []))
          || bool_decide (last new_comps = Some "..")
  then new_comps ++ [comp]
  else removelast new_comps.

Fixpoint slashes (n : nat) : string :=
  match n with O => "" | S n' => String slash (slashes n') end.

(** [normpath(path)] *)
Definition normpath (path : string) : string :=
  if negb (Str.truthy path) then "."
  else
    let k := initial_slashes path in
    let comps := foldl (normpath_step k) [] (Str.split slash path) in
    let path := slashes k +:+ Str.join "/" comps in
    if Str.truthy path then path else ".".

(** [abspath(path)] in a process whose working directory is [cwd] *)
Definition abspath (cwd path : string) : string :=
  normpath (if negb (isabs path) then join cwd path else path).

(** [p[:p.rfind("/") + 1]] *)
Fixpoint head_of (p : string) : string :=
  match p with
  | EmptyString => EmptyString
  | String a p' =>
      if Str.contains p' "/" then String a (head_of p')
      else if Ascii.eqb a slash then "/" else EmptyString
  end.

(** [s.rstrip("/")] *)
Fixpoint rstrip (s : string) : string :=
  match s with
  | EmptyString => EmptyString
  | String a s' =>
      match rstrip s' with
      | EmptyString => if Ascii.eqb a slash then EmptyString
                       else String a EmptyString
      | r => String a r
      end
  end.

(** [dirname(p)] *)
Definition dirname (p : string) : string :=
  let head := head_of p in
  if Str.truthy head && negb (String.eqb head (slashes (String.length head)))
  then rstrip head else head.

End posixpath.

(** The [os.path] of a POSIX process whose working directory is [cwd]. *)
Definition posix (cwd : string) : OsPath :=
  {| sep := "/";
     abspath := posixpath.abspath cwd;
     dirname := posixpath.dirname;
     join := posixpath.join |}.

(** ** The calls a build makes *)

(** The command lines of the child processes of a trace, in order. *)
Definition spawned (tr : list event) : list (list string) :=
  omap (λ e, match e with EvSpawn argv _ _ => Some argv | _ => None end) tr.

Section Calls.
Context `{OsPath}.

(** The configure-phase arguments: what follows [cmake <sourcedir>] on
    the command line of the first child of [build_extension]. *)
Definition configure_call (self : CMakeBuild) (ext : CMakeExtension)
    (h : Host) : option (list string) :=
  drop 2 <$> spawned (trace_of (build_extension self ext) h) !! 0%nat.

(** The build-phase arguments: what follows [cmake --build .] on the
    command line of the second child. *)
Definition build_call (self : CMakeBuild) (ext : CMakeExtension)
    (h : Host) : option (list string) :=
  drop 3 <$> spawned (trace_of (build_extension self ext) h) !! 1%nat.

(** The generator override, [os.environ.get("CMAKE_GENERATOR", "")]. *)
Definition generator_of (h : Host) : string :=
  default "" (os_environ h !! "CMAKE_GENERATOR").

(** The build directory is there, or can be made (lines 109-110). *)
Definition build_temp_ready (self : CMakeBuild) (h : Host) : Prop :=
  os_path_exists h (build_temp self) = true ∨
  os_makedirs h (build_temp self) = None.

End Calls.

(** ** Sample runs *)

(** A POSIX host that answers every request with success. *)
Definition host_with (platform : string) (environ : gmap string string)
    : Host :=
  {| sys_platform := platform;
     sys_executable := "/usr/bin/python3";
     os_environ := environ;
     ninja_importable := true;
     os_path_exists := λ _, false;
     os_makedirs := λ _, None;
     run_child := λ _ _ _, Exited 0;
     super_run := None |}.

(** A [build_ext] command for the extension of the script. *)
Definition command_with (compiler plat : string) (dbg : bool)
    (jobs : pyattr) : CMakeBuild :=
  {| get_ext_fullpath := λ name, "/proj/build/lib/" +:+ name +:+ ".so";
     debug := dbg;
     compiler_type := compiler;
     plat_name := plat;
     parallel := jobs;
     build_temp := "build/temp";
     get_version := "1.4.0" |}.

(** [CMakeExtension('pyqubo')] in a process started in [/proj]. *)
Definition pyqubo_ext : CMakeExtension :=
  CMakeExtension_init (H := posix "/proj") "pyqubo" None.

(** A host on which the Python tests pass and the native test build
    succeeds, but the native test binary exits with status 1. *)
Definition native_tests_fail : Host :=
  {| sys_platform := "linux";
     sys_executable := "/usr/bin/python3";
     os_environ := ∅;
     ninja_importable := true;
     os_path_exists := λ _, true;
     os_makedirs := λ _, None;
     run_child := λ argv _ _,
       if bool_decide (argv = ["./tests/pyqubo_test"]) then Exited 1
       else Exited 0;
     super_run := None |}.

(** ** Architecture flags *)

(** The flags string that lists the architectures [vs]: tokens of the
    form [-arch <value>], separated by a space. *)
Definition arch_flags (vs : list string) : string :=
  Str.join " " (map (λ v, "-arch " +:+ v) vs).

(** A flags string that lists the architectures [vs], in general:
    tokens [-arch <value>] with white space before, between and after
    them. Each value is a non-empty run of non-space characters and ends
    at the end of the string or at a space. *)
Inductive lists_archs : string → list string → Prop :=
| lists_archs_nil ws :
    Str.blank ws = true → lists_archs ws []
| lists_archs_cons ws v rest vs :
    Str.blank ws = true →
    v ≠ "" → Str.nospace v = true →
    rest = "" ∨ (∃ c r, rest = String c r ∧ Str.isspace c = true) →
    lists_archs rest vs →
    lists_archs (ws +:+ "-arch " +:+ v +:+ rest) (v :: vs).

(** ** Variations of a run *)

(** The same command with another [self.parallel]. *)
Definition with_parallel (jobs : pyattr) (self : CMakeBuild) : CMakeBuild :=
  {| get_ext_fullpath := get_ext_fullpath self;
     debug := debug self;
     compiler_type := compiler_type self;
     plat_name := plat_name self;
     parallel := jobs;
     build_temp := build_temp self;
     get_version := get_version self |}.

(** The same host with [CMAKE_BUILD_PARALLEL_LEVEL] set to [level], or
    unset. *)
Definition with_parallel_level (level : option string) (h : Host) : Host :=
  {| sys_platform := sys_platform h;
     sys_executable := sys_executable h;
     os_environ :=
       partial_alter (λ _, level) "CMAKE_BUILD_PARALLEL_LEVEL" (os_environ h);
     ninja_importable := ninja_importable h;
     os_path_exists := os_path_exists h;
     os_makedirs := os_makedirs h;
     run_child := run_child h;
     super_run := super_run h |}.

(** The same command for another platform identifier. *)
Definition with_plat_name (plat : string) (self : CMakeBuild) : CMakeBuild :=
  {| get_ext_fullpath := get_ext_fullpath self;
     debug := debug self;
     compiler_type := compiler_type self;
     plat_name := plat;
     parallel := parallel self;
     build_temp := build_temp self;
     get_version := get_version self |}.

(** ** The two children of a build *)

(** Line 112: [cmake <sourcedir> <cmake_args>] in the build directory. *)
Definition configure_event (self : CMakeBuild) (ext : CMakeExtension)
    (cmake_args : list string) : event :=
  EvSpawn (["cmake"; ext_sourcedir ext] ++ cmake_args) (build_temp self) false.

(** Line 115: [cmake --build . <build_args>] in the build directory. *)
Definition build_event (self : CMakeBuild) (build_args : list string)
    : event :=
  EvSpawn (["cmake"; "--build"; "."] ++ build_args) (build_temp self) false.

(** Lines 109-117 in full: the events of a build in which nothing goes
    wrong. *)
Definition full_trace (self : CMakeBuild) (ext : CMakeExtension) (h : Host)
    (cmake_args build_args : list string) : list event :=
  (if os_path_exists h (build_temp self) then []
   else [EvMakedirs (build_temp self)])
  ++ [configure_event self ext cmake_args; build_event self build_args].

(** The platform table is consulted (line 81): MSVC, and a generator
    that is neither single-config nor names an architecture. *)
Definition consults_table (self : CMakeBuild) (h : Host) : Prop :=
  compiler_type self = "msvc" ∧
  single_config (generator_of h) = false ∧
  contains_arch (generator_of h) = false.

(** Two environments in which [build_extension] reads the same: the
    three variables whose value it uses, and the presence of the
    fourth. *)
Definition same_build_vars (e1 e2 : gmap string string) : Prop :=
  e1 !! "CMAKE_GENERATOR" = e2 !! "CMAKE_GENERATOR" ∧
  e1 !! "USE_OMP" = e2 !! "USE_OMP" ∧
  e1 !! "ARCHFLAGS" = e2 !! "ARCHFLAGS" ∧
  (is_Some (e1 !! "CMAKE_BUILD_PARALLEL_LEVEL")
   ↔ is_Some (e2 !! "CMAKE_BUILD_PARALLEL_LEVEL")).

(** A host on which the configure call exits with status 2. *)
Definition configure_fails : Host :=
  {| sys_platform := "linux";
     sys_executable := "/usr/bin/python3";
     os_environ := ∅;
     ninja_importable := false;
     os_path_exists := λ _, true;
     os_makedirs := λ _, None;
     run_child := λ argv _ _,
       if bool_decide (argv !! 1%nat = Some "--build") then Exited 0
       else Exited 2;
     super_run := None |}.

(** * Properties *)

(** ** The model on sample runs *)

Example findall_arch_two :
  findall_arch "-arch x86_64 -arch arm64" = ["x86_64"; "arm64"].
Proof. reflexivity. Qed.

Example findall_arch_needs_one_space :
  findall_arch "-arch  x -march=y -arch" = [].
Proof. reflexivity. Qed.

Example normpath_samples :
  map posixpath.normpath ["//a/../b/"; "///a"; "a/../.."; "/.."; ""]
  = ["//b"; "/a"; ".."; "/"; "."].
Proof. reflexivity. Qed.

Example build_on_linux :
  build_extension (H := posix "/proj")
    (command_with "unix" "linux-x86_64" false PyNone) pyqubo_ext
    (host_with "linux" ∅)
  = ([EvMakedirs "build/temp";
      EvSpawn ["cmake"; "/proj";
               "-DCMAKE_LIBRARY_OUTPUT_DIRECTORY=/proj/build/lib/";
               "-DPYTHON_EXECUTABLE=/usr/bin/python3";
               "-DPYQUBO_VERSION_INFO=1.4.0";
               "-DCMAKE_BUILD_TYPE=Release";
               "-GNinja"] "build/temp" false;
      EvSpawn ["cmake"; "--build"; "."] "build/temp" false],
     Ok tt).
Proof. by vm_compute. Qed.

Example build_with_msvc :
  configure_call (H := posix "/proj")
    (command_with "msvc" "win-amd64" false PyNone) pyqubo_ext
    (host_with "win32" ∅)
  = Some ["-DCMAKE_LIBRARY_OUTPUT_DIRECTORY=/proj/build/lib/";
          "-DPYTHON_EXECUTABLE=/usr/bin/python3";
          "-DPYQUBO_VERSION_INFO=1.4.0";
          "-DCMAKE_BUILD_TYPE=Release";
          "-A"; "x64";
          "-DCMAKE_LIBRARY_OUTPUT_DIRECTORY_RELEASE=/proj/build/lib/"] ∧
  build_call (H := posix "/proj")
    (command_with "msvc" "win-amd64" false PyNone) pyqubo_ext
    (host_with "win32" ∅)
  = Some ["--config"; "Release"].
Proof. by vm_compute. Qed.

(** ** Strings *)

Lemma str_app_cons a s t : String a s +:+ t = String a (s +:+ t).
Proof. reflexivity. Qed.

Lemma str_app_nil_l s : "" +:+ s = s.
Proof. reflexivity. Qed.

Lemma str_app_nil_r s : s +:+ "" = s.
Proof. induction s as [|a s IH]; [done|]. by rewrite str_app_cons, IH. Qed.

Lemma str_app_assoc s t u : (s +:+ t) +:+ u = s +:+ (t +:+ u).
Proof. induction s as [|a s IH]; [done|]. by rewrite !str_app_cons, IH. Qed.

Lemma prefix_refl_app p s : String.prefix p (p +:+ s) = true.
Proof.
  induction p as [|a p IH]; [by destruct s|].
  rewrite str_app_cons. simpl. by destruct (ascii_dec a a).
Qed.

Lemma prefix_split p s :
  String.prefix p s = true ↔ ∃ r, s = p +:+ r.
Proof.
  split.
  - revert s; induction p as [|a p IH]; intros s Hp.
    + by exists s.
    + destruct s as [|b s]; [done|]. simpl in Hp.
      destruct (ascii_dec a b) as [->|]; [|done].
      destruct (IH _ Hp) as [r ->]. by exists r.
  - intros [r ->]. apply prefix_refl_app.
Qed.

Lemma endswith_nil suf : Str.endswith "" suf = String.eqb "" suf.
Proof. unfold Str.endswith. apply orb_false_r. Qed.

Lemma endswith_cons a s suf :
  Str.endswith (String a s) suf
  = String.eqb (String a s) suf || Str.endswith s suf.
Proof. reflexivity. Qed.

Lemma contains_nil needle : Str.contains "" needle = String.prefix needle "".
Proof. unfold Str.contains. apply orb_false_r. Qed.

Lemma contains_cons a s needle :
  Str.contains (String a s) needle
  = String.prefix needle (String a s) || Str.contains s needle.
Proof. reflexivity. Qed.

Lemma endswith_split s suf :
  Str.endswith s suf = true ↔ ∃ pre, s = pre +:+ suf.
Proof.
  split.
  - induction s as [|a s IH].
    + rewrite endswith_nil. intros <-%String.eqb_eq. by exists "".
    + rewrite endswith_cons.
      intros [<-%String.eqb_eq | Hs]%orb_true_iff.
      * by exists "".
      * destruct (IH Hs) as [pre ->]. by exists (String a pre).
  - intros [pre ->]. induction pre as [|a pre IH].
    + rewrite str_app_nil_l. destruct suf.
      * by rewrite endswith_nil.
      * by rewrite endswith_cons, String.eqb_refl.
    + rewrite str_app_cons, endswith_cons, IH. apply orb_true_r.
Qed.

Lemma contains_split s needle :
  Str.contains s needle = true ↔ ∃ pre post, s = pre +:+ needle +:+ post.
Proof.
  split.
  - induction s as [|a s IH].
    + rewrite contains_nil. intros [r Hr]%prefix_split. by exists "", r.
    + rewrite contains_cons.
      intros [[r Hr]%prefix_split | Hs]%orb_true_iff.
      * by exists "", r.
      * destruct (IH Hs) as (pre & post & ->). by exists (String a pre), post.
  - intros (pre & post & ->). induction pre as [|a pre IH].
    + rewrite str_app_nil_l.
      destruct (needle +:+ post) as [|b r] eqn:Hnp.
      * rewrite contains_nil. rewrite <- Hnp. apply prefix_refl_app.
      * rewrite contains_cons. rewrite <- Hnp.
        by rewrite prefix_refl_app.
    + rewrite str_app_cons, contains_cons, IH. apply orb_true_r.
Qed.

(** ** The monad, unfolded *)

Ltac run_M :=
  repeat progress
    (unfold mbind, M_bind, mret, M_ret, ask, lift, raise, emit, print,
       makedirs, subprocess_check_call, subprocess_call, TestCommand_run;
     simpl).

Section CallLemmas.
Context `{OsPath}.

(** [assemble_args] logs nothing and is the three branches in a row. *)
Lemma assemble_args_unfold self ext h :
  assemble_args self ext h =
  ([], match toolchain_branch self (generator_of h) (config_name self)
               (output_dir self ext) (ninja_importable h)
               (baseline_args (output_dir self ext) (sys_executable h)
                  (get_version self) (config_name self)) []
       with
       | Raise e => Raise e
       | Ok (cmake_args, build_args) =>
           match darwin_branch (sys_platform h) (os_environ h) cmake_args
           with
           | Raise e => Raise e
           | Ok cmake_args =>
               Ok (cmake_args,
                   parallel_branch self (os_environ h) build_args)
           end
       end).
Proof.
  unfold assemble_args, generator_of. run_M.
  destruct (toolchain_branch _ _ _ _ _ _ _) as [[c b]|e]; [|done].
  by destruct (darwin_branch _ _ _) as [c'|e].
Qed.

Lemma assemble_args_trace self ext h :
  assemble_args self ext h = ([], outcome_of (assemble_args self ext) h).
Proof. unfold outcome_of. by rewrite assemble_args_unfold. Qed.

(** An exception of the argument assembly ends the method before
    anything is done. *)
Lemma build_extension_raise self ext h e :
  outcome_of (assemble_args self ext) h = Raise e →
  build_extension self ext h = ([], Raise e).
Proof.
  intros He. unfold build_extension.
  unfold mbind at 1, M_bind at 1.
  by rewrite assemble_args_trace, He.
Qed.

(** The run of the method once both lists are assembled. *)
Lemma build_extension_ok self ext h c b :
  outcome_of (assemble_args self ext) h = Ok (c, b) →
  build_extension self ext h =
  ((present ← ask (λ h, os_path_exists h (build_temp self));
    (if negb present then makedirs (build_temp self) else mret tt);;
    subprocess_check_call (["cmake"; ext_sourcedir ext] ++ c)
      (build_temp self);;
    subprocess_check_call (["cmake"; "--build"; "."] ++ b)
      (build_temp self);;
    mret tt) : M unit) h.
Proof.
  intros He. unfold build_extension.
  unfold mbind at 1, M_bind at 1.
  rewrite assemble_args_trace, He. simpl.
  match goal with |- (let '(_, _) := ?x in _) = _ => by destruct x end.
Qed.

Lemma configure_call_inv self ext h c :
  configure_call self ext h = Some c →
  ∃ b, outcome_of (assemble_args self ext) h = Ok (c, b).
Proof.
  unfold configure_call, trace_of.
  destruct (outcome_of (assemble_args self ext) h) as [[c' b]|e] eqn:He.
  - rewrite (build_extension_ok _ _ _ _ _ He). run_M.
    intros Hc. exists b. f_equal. revert Hc.
    repeat (case_match; simplify_eq/=); by intros [= <-].
  - by rewrite (build_extension_raise _ _ _ _ He).
Qed.

Lemma build_call_inv self ext h b :
  build_call self ext h = Some b →
  ∃ c, outcome_of (assemble_args self ext) h = Ok (c, b).
Proof.
  unfold build_call, trace_of.
  destruct (outcome_of (assemble_args self ext) h) as [[c b']|e] eqn:He.
  - rewrite (build_extension_ok _ _ _ _ _ He). run_M.
    intros Hc. exists c. f_equal. revert Hc.
    repeat (case_match; simplify_eq/=); by intros [= <-].
  - by rewrite (build_extension_raise _ _ _ _ He).
Qed.

Lemma configure_call_intro self ext h c b :
  outcome_of (assemble_args self ext) h = Ok (c, b) →
  build_temp_ready self h →
  configure_call self ext h = Some c.
Proof.
  intros He Hd. unfold configure_call, trace_of.
  rewrite (build_extension_ok _ _ _ _ _ He). run_M.
  destruct Hd as [Hd|Hd]; rewrite ?Hd; simpl;
    repeat (case_match; simplify_eq/=); done.
Qed.

Lemma build_call_intro self ext h c b :
  outcome_of (assemble_args self ext) h = Ok (c, b) →
  build_temp_ready self h →
  run_child h (["cmake"; ext_sourcedir ext] ++ c) (build_temp self) false
    = Exited 0 →
  build_call self ext h = Some b.
Proof.
  intros He Hd Hc. unfold build_call, trace_of.
  rewrite (build_extension_ok _ _ _ _ _ He). run_M.
  simpl in Hc. rewrite Hc. simpl.
  destruct Hd as [Hd|Hd]; rewrite ?Hd; simpl;
    repeat (case_match; simplify_eq/=); done.
Qed.

End CallLemmas.

(** ** The argument lists only grow *)

(** [l ++ x = l ++ ?y], whatever the bracketing. *)
Ltac grow_eq :=
  first [ reflexivity
        | symmetry; apply app_nil_r
        | rewrite <- (assoc_L (++)); reflexivity ].

Section Shape.
Context `{OsPath}.

Lemma toolchain_branch_grows self g cfg extdir ninja ca ba c b :
  toolchain_branch self g cfg extdir ninja ca ba = Ok (c, b) →
  ∃ xc xb, c = ca ++ xc ∧ b = ba ++ xb.
Proof.
  unfold toolchain_branch.
  intros Hc; repeat (case_match; simplify_eq/=);
    eexists _, _; split; grow_eq.
Qed.

Lemma darwin_branch_grows platform environ ca c :
  darwin_branch platform environ ca = Ok c → ∃ xc, c = ca ++ xc.
Proof.
  unfold darwin_branch, archflags_branch.
  destruct (Str.startswith _ _); [|intros [= <-]; eexists; grow_eq].
  destruct (use_omp _) as [[]|]; simpl; try done.
  destruct (findall_arch _); intros [= <-]; eexists; grow_eq.
Qed.

Lemma assemble_args_baseline self ext h c b :
  outcome_of (assemble_args self ext) h = Ok (c, b) →
  ∃ xc, c = baseline_args (output_dir self ext) (sys_executable h)
              (get_version self) (config_name self) ++ xc.
Proof.
  unfold outcome_of. rewrite assemble_args_unfold. simpl.
  destruct (toolchain_branch _ _ _ _ _ _ _) as [[c1 b1]|e] eqn:Ht; [|done].
  destruct (darwin_branch _ _ _) as [c2|e] eqn:Hd; [|done].
  intros [= <- <-].
  apply toolchain_branch_grows in Ht as (xc & xb & -> & ->).
  apply darwin_branch_grows in Hd as (xc' & ->).
  exists (xc ++ xc'). by rewrite <- (assoc_L (++)).
Qed.

End Shape.

(** ** C4: the output directory *)

Lemma with_trailing_sep_ends `{OsPath} p :
  Str.endswith (with_trailing_sep p) sep = true.
Proof.
  unfold with_trailing_sep.
  destruct (Str.endswith p sep) eqn:Hp; simpl; [done|].
  apply endswith_split. by exists p.
Qed.

(** C4. The output directory computed for an extension ends with the
    path separator of the host, whether or not the path it is derived
    from already did (a path that did is kept as it is, the separator is
    added to one that did not), and this is the directory named by the
    output-directory define of every configure call. *)
Theorem output_dir_ends_with_sep `{OsPath}
    (self : CMakeBuild) (ext : CMakeExtension) (h : Host) :
  Str.endswith (output_dir self ext) sep = true ∧
  (∀ p, Str.endswith (with_trailing_sep p) sep = true ∧
        (Str.endswith p sep = true → with_trailing_sep p = p) ∧
        (Str.endswith p sep = false → with_trailing_sep p = p +:+ sep)) ∧
  (∀ c, configure_call self ext h = Some c →
        "-DCMAKE_LIBRARY_OUTPUT_DIRECTORY=" +:+ output_dir self ext ∈ c).
Proof.
  split; [apply with_trailing_sep_ends|]. split.
  - intros p. split; [apply with_trailing_sep_ends|].
    unfold with_trailing_sep. by split; intros ->.
  - intros c [b Hc]%configure_call_inv.
    apply assemble_args_baseline in Hc as [xc ->].
    apply elem_of_app. left. unfold baseline_args. apply list_elem_of_here.
Qed.

Lemma output_dir_ends_with_sep_witness :
  "-DCMAKE_LIBRARY_OUTPUT_DIRECTORY=/proj/build/lib/"
  ∈ default [] (configure_call (H := posix "/proj")
                  (command_with "unix" "linux-x86_64" false PyNone)
                  pyqubo_ext (host_with "linux" ∅)).
Proof.
  destruct (output_dir_ends_with_sep (H := posix "/proj")
              (command_with "unix" "linux-x86_64" false PyNone)
              pyqubo_ext (host_with "linux" ∅)) as (_ & _ & Hc).
  apply (Hc _). vm_compute. reflexivity.
Defined.

(** ** C3: the platform table *)

Lemma PLAT_TO_CMAKE_unknown p :
  p ∉ ["win32"; "win-amd64"; "win-arm32"; "win-arm64"] →
  PLAT_TO_CMAKE !! p = None.
Proof.
  intros Hp. unfold PLAT_TO_CMAKE.
  rewrite !lookup_insert_ne; [apply lookup_empty|..];
    intros <-; apply Hp; set_solver.
Qed.

Lemma PLAT_TO_CMAKE_known p arch :
  subscript PLAT_TO_CMAKE p = Ok arch →
  (p, arch) ∈ [("win32", "Win32"); ("win-amd64", "x64");
               ("win-arm32", "ARM"); ("win-arm64", "ARM64")].
Proof.
  unfold subscript, PLAT_TO_CMAKE.
  rewrite !lookup_insert, lookup_empty.
  repeat case_decide; intros [= <-]; subst p;
    rewrite !elem_of_cons; tauto.
Qed.

Lemma PLAT_TO_CMAKE_values p arch :
  subscript PLAT_TO_CMAKE p = Ok arch →
  arch ∈ ["Win32"; "x64"; "ARM"; "ARM64"].
Proof.
  intros Hk%PLAT_TO_CMAKE_known. revert Hk.
  rewrite !elem_of_cons, !elem_of_nil.
  intros [[= _ ->]|[[= _ ->]|[[= _ ->]|[[= _ ->]|[]]]]]; tauto.
Qed.

Section Resolver.
Context `{OsPath}.

Lemma msvc_eqb self :
  compiler_type self = "msvc" →
  negb (String.eqb (compiler_type self) "msvc") = false.
Proof. by intros ->. Qed.

(** C3. Each of the four platform identifiers of the table resolves
    to its architecture argument, and the table answers for no other
    identifier and never with an empty string. For any other
    identifier, when the table is consulted (MSVC compiler, a
    generator that is neither single-config nor carries an
    architecture in its name) the subscript raises [KeyError] for the
    identifier and [build_extension] ends with that exception without
    having made the build directory or launched a child process. *)
Theorem unsupported_platform_fails (self : CMakeBuild)
    (ext : CMakeExtension) (h : Host) :
  compiler_type self = "msvc" →
  single_config (generator_of h) = false →
  contains_arch (generator_of h) = false →
  plat_name self ∉ ["win32"; "win-amd64"; "win-arm32"; "win-arm64"] →
  (subscript PLAT_TO_CMAKE "win32" = Ok "Win32" ∧
   subscript PLAT_TO_CMAKE "win-amd64" = Ok "x64" ∧
   subscript PLAT_TO_CMAKE "win-arm32" = Ok "ARM" ∧
   subscript PLAT_TO_CMAKE "win-arm64" = Ok "ARM64") ∧
  (∀ p arch, subscript PLAT_TO_CMAKE p = Ok arch →
             p ∈ ["win32"; "win-amd64"; "win-arm32"; "win-arm64"] ∧
             arch ≠ "") ∧
  subscript PLAT_TO_CMAKE (plat_name self)
    = Raise (KeyError (plat_name self)) ∧
  build_extension self ext h = ([], Raise (KeyError (plat_name self))).
Proof.
  intros Hm Hs Ha Hp. split; [done|]. split.
  { intros p arch Hk%PLAT_TO_CMAKE_known. revert Hk.
    rewrite !elem_of_cons, !elem_of_nil.
    intros [[= -> ->]|[[= -> ->]|[[= -> ->]|[[= -> ->]|[]]]]];
      (split; [tauto|done]). }
  assert (subscript PLAT_TO_CMAKE (plat_name self)
          = Raise (KeyError (plat_name self))) as Hk.
  { unfold subscript. by rewrite (PLAT_TO_CMAKE_unknown _ Hp). }
  split; [done|].
  apply build_extension_raise. unfold outcome_of.
  rewrite assemble_args_unfold. unfold toolchain_branch.
  by rewrite (msvc_eqb _ Hm), Hs, Ha, Hk.
Qed.

End Resolver.

Lemma unsupported_platform_fails_witness :
  build_extension (H := posix "/proj")
    (command_with "msvc" "win-ia64" false PyNone) pyqubo_ext
    (host_with "win32" ∅)
  = ([], Raise (KeyError "win-ia64")).
Proof.
  apply (unsupported_platform_fails (H := posix "/proj")
           (command_with "msvc" "win-ia64" false PyNone) pyqubo_ext
           (host_with "win32" ∅)).
  - reflexivity.
  - reflexivity.
  - reflexivity.
  - apply (bool_decide_unpack _). vm_compute. exact I.
Defined.

(** ** Inversion of the argument assembly *)

Lemma not_define (a lit x : string) :
  String.prefix lit a = false → a ≠ lit +:+ x.
Proof. intros Hf ->. by rewrite prefix_refl_app in Hf. Qed.

Section Inversion.
Context `{OsPath}.

Lemma generator_of_set h g :
  os_environ h !! "CMAKE_GENERATOR" = Some g → generator_of h = g.
Proof. unfold generator_of. by intros ->. Qed.

Lemma assemble_args_inv self ext h c b :
  outcome_of (assemble_args self ext) h = Ok (c, b) →
  ∃ c1 b1,
    toolchain_branch self (generator_of h) (config_name self)
      (output_dir self ext) (ninja_importable h)
      (baseline_args (output_dir self ext) (sys_executable h)
         (get_version self) (config_name self)) [] = Ok (c1, b1) ∧
    darwin_branch (sys_platform h) (os_environ h) c1 = Ok c ∧
    b = parallel_branch self (os_environ h) b1.
Proof.
  unfold outcome_of. rewrite assemble_args_unfold.
  cbn [snd].
  destruct (toolchain_branch _ _ _ _ _ _ _) as [[c1 b1]|e]; [|done].
  destruct (darwin_branch _ _ _) as [c2|e] eqn:Hd; [|done].
  intros [= <- <-]. by exists c1, b1.
Qed.

Lemma assemble_args_intro self ext h c1 b1 c :
  toolchain_branch self (generator_of h) (config_name self)
    (output_dir self ext) (ninja_importable h)
    (baseline_args (output_dir self ext) (sys_executable h)
       (get_version self) (config_name self)) [] = Ok (c1, b1) →
  darwin_branch (sys_platform h) (os_environ h) c1 = Ok c →
  outcome_of (assemble_args self ext) h
  = Ok (c, parallel_branch self (os_environ h) b1).
Proof.
  intros Ht Hd. unfold outcome_of. rewrite assemble_args_unfold.
  cbn [snd]. by rewrite Ht, Hd.
Qed.

(** What the branch on the operating system can return. *)
Lemma darwin_branch_inv platform environ ca c :
  darwin_branch platform environ ca = Ok c →
  c = ca ∨
  ∃ v vs, findall_arch (default "" (environ !! "ARCHFLAGS")) = v :: vs ∧
          c = ca ++ ["-DCMAKE_OSX_ARCHITECTURES=" +:+ Str.join ";" (v :: vs)].
Proof.
  unfold darwin_branch, archflags_branch.
  destruct (Str.startswith _ _); [|intros [= <-]; by left].
  destruct (use_omp _) as [[]|]; simpl; try done.
  destruct (findall_arch _) as [|v vs]; intros [= <-]; [by left|].
  right. by exists v, vs.
Qed.

Lemma darwin_branch_off platform environ ca :
  Str.startswith platform "darwin" = false →
  darwin_branch platform environ ca = Ok ca.
Proof. unfold darwin_branch. by intros ->. Qed.

Lemma baseline_args_defines extdir exe ver cfg a :
  a ∈ baseline_args extdir exe ver cfg → String.prefix "-D" a = true.
Proof.
  unfold baseline_args.
  rewrite !elem_of_cons, elem_of_nil.
  intros [->|[->|[->|[->|[]]]]]; reflexivity.
Qed.

End Inversion.

(** ** C5: single-config generators on MSVC *)

Section SingleConfig.
Context `{OsPath}.

Lemma single_config_marker marker pre post :
  marker = "Ninja" ∨ marker = "NMake" →
  single_config (pre +:+ marker +:+ post) = true.
Proof.
  intros Hm. unfold single_config. apply existsb_exists.
  exists marker. split.
  - destruct Hm as [->| ->]; [right; left|left]; done.
  - apply contains_split. by exists pre, post.
Qed.

Lemma toolchain_branch_single self g cfg extdir ninja ca ba :
  compiler_type self = "msvc" →
  single_config g = true →
  toolchain_branch self g cfg extdir ninja ca ba = Ok (ca, ba).
Proof.
  intros Hm Hs. unfold toolchain_branch. by rewrite (msvc_eqb _ Hm), Hs.
Qed.

(** C5. With the MSVC compiler and a generator override that contains
    ["Ninja"] or ["NMake"], the generator is classified single-config
    and the compiler branch leaves both argument lists as they are,
    for every platform identifier: no configure call carries an ["-A"]
    argument, and off the Apple hosts the configure call carries the
    four baseline defines and nothing else. *)
Theorem single_config_skips_arch (self : CMakeBuild)
    (ext : CMakeExtension) (h : Host) (marker pre post : string) :
  compiler_type self = "msvc" →
  marker = "Ninja" ∨ marker = "NMake" →
  os_environ h !! "CMAKE_GENERATOR" = Some (pre +:+ marker +:+ post) →
  single_config (generator_of h) = true ∧
  (∀ cfg extdir ninja ca ba,
     toolchain_branch self (generator_of h) cfg extdir ninja ca ba
     = Ok (ca, ba)) ∧
  (∀ c, configure_call self ext h = Some c → "-A" ∉ c) ∧
  (Str.startswith (sys_platform h) "darwin" = false →
   build_temp_ready self h →
   configure_call self ext h
   = Some (baseline_args (output_dir self ext) (sys_executable h)
             (get_version self) (config_name self))).
Proof.
  intros Hm Hk Hg.
  assert (single_config (generator_of h) = true) as Hs.
  { rewrite (generator_of_set _ _ Hg). by apply single_config_marker. }
  split; [done|]. split.
  { intros. by apply toolchain_branch_single. }
  split.
  - intros c [b Hc]%configure_call_inv.
    apply assemble_args_inv in Hc as (c1 & b1 & Ht & Hd & _).
    rewrite toolchain_branch_single in Ht by done.
    injection Ht as <- <-.
    assert ("-A" ∉ baseline_args (output_dir self ext) (sys_executable h)
                     (get_version self) (config_name self)) as Hb.
    { by intros ?%baseline_args_defines. }
    apply darwin_branch_inv in Hd as [->|(v & vs & _ & ->)]; [done|].
    rewrite elem_of_app, list_elem_of_singleton.
    intros [?|Heq]; [done|]. by apply not_define in Heq.
  - intros Hp Hd.
    eapply configure_call_intro; [|done].
    eapply assemble_args_intro.
    + by apply toolchain_branch_single.
    + by apply darwin_branch_off.
Qed.

End SingleConfig.

Lemma single_config_skips_arch_witness :
  configure_call (H := posix "/proj")
    (command_with "msvc" "win-amd64" false PyNone) pyqubo_ext
    (host_with "win32" {["CMAKE_GENERATOR" := "Ninja Multi-Config"]})
  = Some [ "-DCMAKE_LIBRARY_OUTPUT_DIRECTORY=/proj/build/lib/";
           "-DPYTHON_EXECUTABLE=/usr/bin/python3";
           "-DPYQUBO_VERSION_INFO=1.4.0";
           "-DCMAKE_BUILD_TYPE=Release" ].
Proof.
  apply (single_config_skips_arch (H := posix "/proj")
           (command_with "msvc" "win-amd64" false PyNone) pyqubo_ext
           (host_with "win32" {["CMAKE_GENERATOR" := "Ninja Multi-Config"]})
           "Ninja" "" " Multi-Config").
  - reflexivity.
  - by left.
  - reflexivity.
  - reflexivity.
  - right. reflexivity.
Defined.

(** ** C6: multi-config generators on MSVC *)

Section MultiConfig.
Context `{OsPath}.

Lemma parallel_branch_grows self environ b :
  ∃ x, parallel_branch self environ b = b ++ x.
Proof.
  unfold parallel_branch.
  destruct (environ !! _); [eexists; grow_eq|].
  destruct (requested_jobs _); eexists; grow_eq.
Qed.

Lemma toolchain_branch_multi_inv self g cfg extdir ninja ca ba c b :
  compiler_type self = "msvc" →
  single_config g = false →
  toolchain_branch self g cfg extdir ninja ca ba = Ok (c, b) →
  (∃ mid, c = ca ++ mid ++
              ["-DCMAKE_LIBRARY_OUTPUT_DIRECTORY_" +:+ Str.upper cfg
                 +:+ "=" +:+ extdir]) ∧
  b = ba ++ ["--config"; cfg].
Proof.
  intros Hm Hs. unfold toolchain_branch.
  rewrite (msvc_eqb _ Hm), Hs. cbn [negb andb].
  destruct (contains_arch g); cbn [negb].
  - intros [= <- <-]. split; [by exists []|done].
  - destruct (subscript _ _) as [arch|e]; [|done].
    intros [= <- <-]. split; [|done].
    exists ["-A"; arch]. by rewrite <- (assoc_L (++)).
Qed.

Lemma toolchain_branch_multi_ok self g cfg extdir ninja ca ba :
  compiler_type self = "msvc" →
  single_config g = false →
  contains_arch g = true ∨ is_Some (PLAT_TO_CMAKE !! plat_name self) →
  ∃ c b, toolchain_branch self g cfg extdir ninja ca ba = Ok (c, b).
Proof.
  intros Hm Hs Hr. unfold toolchain_branch, subscript.
  rewrite (msvc_eqb _ Hm), Hs. cbn [negb andb].
  destruct (contains_arch g); cbn [negb]; [by eexists _, _|].
  destruct Hr as [|[arch ->]]; [done|]. by eexists _, _.
Qed.

(** C6. With the MSVC compiler, a generator that is not single-config
    and a debug build, the configuration is ["Debug"], upper-cased to
    ["DEBUG"] in the key of the per-configuration define; every
    configure call carries that define for the output directory and
    the arguments of every build call start with ["--config"],
    ["Debug"]. The calls are made when the platform table answers (or
    is not consulted), the host is not an Apple one and the children
    succeed. *)
Theorem multi_config_debug_args (self : CMakeBuild)
    (ext : CMakeExtension) (h : Host) :
  compiler_type self = "msvc" →
  single_config (generator_of h) = false →
  debug self = true →
  (config_name self = "Debug" ∧ Str.upper (config_name self) = "DEBUG") ∧
  (∀ c, configure_call self ext h = Some c →
        "-DCMAKE_LIBRARY_OUTPUT_DIRECTORY_DEBUG=" +:+ output_dir self ext
        ∈ c) ∧
  (∀ b, build_call self ext h = Some b →
        ∃ rest, b = "--config" :: "Debug" :: rest) ∧
  (contains_arch (generator_of h) = true
     ∨ is_Some (PLAT_TO_CMAKE !! plat_name self) →
   Str.startswith (sys_platform h) "darwin" = false →
   build_temp_ready self h →
   is_Some (configure_call self ext h) ∧
   ((∀ argv, run_child h argv (build_temp self) false = Exited 0) →
    is_Some (build_call self ext h))).
Proof.
  intros Hm Hs Hdbg.
  assert (config_name self = "Debug") as Hcfg.
  { unfold config_name. by rewrite Hdbg. }
  split; [by rewrite Hcfg|]. split; [|split].
  - intros c [b Hc]%configure_call_inv.
    apply assemble_args_inv in Hc as (c1 & b1 & Ht & Hd & _).
    apply toolchain_branch_multi_inv in Ht as [[mid ->] _]; [|done..].
    apply darwin_branch_grows in Hd as [xc ->].
    rewrite Hcfg. rewrite !elem_of_app, list_elem_of_singleton.
    left. right. right. reflexivity.
  - intros b [c Hc]%build_call_inv.
    apply assemble_args_inv in Hc as (c1 & b1 & Ht & _ & ->).
    apply toolchain_branch_multi_inv in Ht as [_ ->]; [|done..].
    destruct (parallel_branch_grows self (os_environ h)
                ([] ++ ["--config"; config_name self])) as [x ->].
    rewrite Hcfg. by exists x.
  - intros Hr Hp Hd.
    destruct (toolchain_branch_multi_ok self (generator_of h)
                (config_name self) (output_dir self ext)
                (ninja_importable h)
                (baseline_args (output_dir self ext) (sys_executable h)
                   (get_version self) (config_name self)) [] Hm Hs Hr)
      as (c & b & Ht).
    pose proof (assemble_args_intro _ _ _ _ _ _ Ht
                  (darwin_branch_off _ _ _ Hp)) as Ha.
    split.
    + exists c. by eapply configure_call_intro.
    + intros Hrun. eexists. eapply build_call_intro; [done..|].
      apply Hrun.
Qed.

End MultiConfig.

Lemma multi_config_debug_args_witness :
  "-DCMAKE_LIBRARY_OUTPUT_DIRECTORY_DEBUG=/proj/build/lib/"
  ∈ default [] (configure_call (H := posix "/proj")
                  (command_with "msvc" "win-amd64" true PyNone) pyqubo_ext
                  (host_with "win32" ∅)) ∧
  default [] (build_call (H := posix "/proj")
                (command_with "msvc" "win-amd64" true PyNone) pyqubo_ext
                (host_with "win32" ∅))
  = ["--config"; "Debug"].
Proof.
  assert (single_config (generator_of (host_with "win32" ∅)) = false)
    as Hs by (vm_compute; reflexivity).
  destruct (multi_config_debug_args (H := posix "/proj")
              (command_with "msvc" "win-amd64" true PyNone) pyqubo_ext
              (host_with "win32" ∅) eq_refl Hs eq_refl)
    as (_ & Hc & _ & _).
  split.
  - apply (Hc _). vm_compute. reflexivity.
  - vm_compute. reflexivity.
Defined.

(** ** Everything a configure call can carry *)

Section Elements.
Context `{OsPath}.

Lemma toolchain_branch_elements self g cfg extdir ninja ca ba c b :
  toolchain_branch self g cfg extdir ninja ca ba = Ok (c, b) →
  (∀ a, a ∈ c →
     a ∈ ca ∨
     a ∈ ["-GNinja"; "-A"; "Win32"; "x64"; "ARM"; "ARM64";
          "-DCMAKE_LIBRARY_OUTPUT_DIRECTORY_" +:+ Str.upper cfg
            +:+ "=" +:+ extdir]) ∧
  (b = ba ∨ b = ba ++ ["--config"; cfg]).
Proof.
  unfold toolchain_branch.
  destruct (negb (String.eqb _ _)).
  { destruct (negb (Str.truthy g)); [destruct ninja|];
      intros [= <- <-]; (split; [|by left]); intros a;
      rewrite ?elem_of_app, ?list_elem_of_singleton, !elem_of_cons;
      tauto. }
  destruct (single_config g); cbn [negb andb].
  { intros [= <- <-]. split; [by left|by left]. }
  destruct (contains_arch g); cbn [negb].
  { intros [= <- <-]. split; [|by right]. intros a.
    rewrite ?elem_of_app, ?list_elem_of_singleton, !elem_of_cons.
    tauto. }
  destruct (subscript _ _) as [arch|e] eqn:Hk; [|done].
  apply PLAT_TO_CMAKE_values in Hk.
  intros [= <- <-]. split; [|by right]. intros a.
  revert Hk.
  rewrite ?elem_of_app, ?list_elem_of_singleton, !elem_of_cons,
    !elem_of_nil.
  intros Hk [[?|[->|[->|[]]]]| ->]; tauto.
Qed.

(** Every configure argument is a baseline define, a generator or
    architecture selection, the per-configuration define or the define
    of the target architectures. *)
Lemma configure_call_elements self ext h c a :
  configure_call self ext h = Some c →
  a ∈ c →
  a ∈ baseline_args (output_dir self ext) (sys_executable h)
        (get_version self) (config_name self) ∨
  a ∈ ["-GNinja"; "-A"; "Win32"; "x64"; "ARM"; "ARM64";
       "-DCMAKE_LIBRARY_OUTPUT_DIRECTORY_"
         +:+ Str.upper (config_name self) +:+ "="
         +:+ output_dir self ext] ∨
  ∃ archs, a = "-DCMAKE_OSX_ARCHITECTURES=" +:+ Str.join ";" archs.
Proof.
  intros [b Hc]%configure_call_inv Ha.
  apply assemble_args_inv in Hc as (c1 & b1 & Ht & Hd & _).
  apply toolchain_branch_elements in Ht as [Ht _].
  apply darwin_branch_inv in Hd as [->|(v & vs & _ & ->)].
  - destruct (Ht _ Ha); tauto.
  - apply elem_of_app in Ha as [Ha|Ha%list_elem_of_singleton].
    + destruct (Ht _ Ha); tauto.
    + right. right. by eexists.
Qed.

End Elements.

(** ** C8 and C1: the OpenMP switch on Apple hosts *)

Section OpenMP.
Context `{OsPath}.

Lemma use_omp_unknown environ v :
  environ !! "USE_OMP" = Some v → v ≠ "True" → v ≠ "False" →
  use_omp environ = Raise (KeyError v).
Proof.
  intros Hv Ht Hf. unfold use_omp, subscript, USE_OMP_TABLE.
  rewrite Hv. cbn [from_option id].
  rewrite !lookup_insert_ne by done. by rewrite lookup_empty.
Qed.

Lemma toolchain_branch_not_msvc self g cfg extdir ninja ca ba :
  compiler_type self ≠ "msvc" →
  ∃ c, toolchain_branch self g cfg extdir ninja ca ba = Ok (c, ba).
Proof.
  intros Hm%String.eqb_neq. unfold toolchain_branch. rewrite Hm.
  cbn [negb]. destruct (negb (Str.truthy g)); [destruct ninja|];
    by eexists.
Qed.

(** An exception of the branch on the operating system ends the
    method with an exception and an empty trace; it is that very
    exception unless the compiler branch raised before it. *)
Lemma darwin_branch_raise self ext h e :
  (∀ ca, darwin_branch (sys_platform h) (os_environ h) ca = Raise e) →
  ∃ e', build_extension self ext h = ([], Raise e') ∧
        (compiler_type self ≠ "msvc" → e' = e).
Proof.
  intros Hd.
  destruct (toolchain_branch self (generator_of h) (config_name self)
              (output_dir self ext) (ninja_importable h)
              (baseline_args (output_dir self ext) (sys_executable h)
                 (get_version self) (config_name self)) [])
    as [[c1 b1]|e1] eqn:Ht.
  - exists e. split; [|done]. apply build_extension_raise.
    unfold outcome_of. rewrite assemble_args_unfold. cbn [snd].
    by rewrite Ht, Hd.
  - exists e1. split.
    + apply build_extension_raise.
      unfold outcome_of. rewrite assemble_args_unfold. cbn [snd].
      by rewrite Ht.
    + intros Hm.
      destruct (toolchain_branch_not_msvc self (generator_of h)
                  (config_name self) (output_dir self ext)
                  (ninja_importable h)
                  (baseline_args (output_dir self ext) (sys_executable h)
                     (get_version self) (config_name self)) [] Hm)
        as [c Hc].
      congruence.
Qed.

(** C8. The OpenMP switch resolves to [False] when [USE_OMP] is unset or
    is ["False"], and to [True] when it is ["True"]. On an Apple host,
    any other value [v] makes the subscript raise [KeyError(v)] and the
    method ends with an exception and an empty trace: no directory is
    made and no child is launched. The exception is [KeyError(v)]
    whenever the compiler is not MSVC. *)
Theorem use_omp_values (self : CMakeBuild) (ext : CMakeExtension)
    (h : Host) (v : string) :
  Str.startswith (sys_platform h) "darwin" = true →
  os_environ h !! "USE_OMP" = Some v →
  v ≠ "True" → v ≠ "False" →
  (∀ environ, environ !! "USE_OMP" = None → use_omp environ = Ok false) ∧
  (∀ environ, environ !! "USE_OMP" = Some "False" →
              use_omp environ = Ok false) ∧
  (∀ environ, environ !! "USE_OMP" = Some "True" →
              use_omp environ = Ok true) ∧
  use_omp (os_environ h) = Raise (KeyError v) ∧
  ∃ e, build_extension self ext h = ([], Raise e) ∧
       (compiler_type self ≠ "msvc" → e = KeyError v).
Proof.
  intros Hp Hv Ht Hf.
  split; [by intros environ; unfold use_omp; intros ->|].
  split; [by intros environ; unfold use_omp; intros ->|].
  split; [by intros environ; unfold use_omp; intros ->|].
  pose proof (use_omp_unknown _ _ Hv Ht Hf) as Hu.
  split; [done|].
  apply darwin_branch_raise. intros ca.
  unfold darwin_branch. by rewrite Hp, Hu.
Qed.

(** C1 (as the code has it). No configure call of any build carries
    [-DUSE_OMP=No]. On an Apple host on which the OpenMP switch resolves
    to [False], line 94 reads the unbound name [cmake_wargs]: the
    method ends with an exception and an empty trace, so that there is
    no configure call at all; the exception is [UnboundLocalError]
    whenever the compiler is not MSVC. *)
Theorem openmp_disable_never_passed (self : CMakeBuild)
    (ext : CMakeExtension) (h : Host) :
  Str.startswith (sys_platform h) "darwin" = true →
  use_omp (os_environ h) = Ok false →
  (∀ self' ext' h' c, configure_call self' ext' h' = Some c →
                      "-DUSE_OMP=No" ∉ c) ∧
  configure_call self ext h = None ∧
  ∃ e, build_extension self ext h = ([], Raise e) ∧
       (compiler_type self ≠ "msvc" →
        e = UnboundLocalError "cmake_wargs").
Proof.
  intros Hp Hu. split.
  { intros self' ext' h' c Hc Ha.
    destruct (configure_call_elements _ _ _ _ _ Hc Ha)
      as [Hb|[Hb|[archs Hb]]].
    - revert Hb. unfold baseline_args.
      rewrite !elem_of_cons, elem_of_nil.
      intros [Hb|[Hb|[Hb|[Hb|[]]]]]; by apply not_define in Hb.
    - revert Hb. rewrite !elem_of_cons, elem_of_nil.
      intros [Hb|[Hb|[Hb|[Hb|[Hb|[Hb|[Hb|[]]]]]]]]; done.
    - by apply not_define in Hb. }
  destruct (darwin_branch_raise self ext h
              (UnboundLocalError "cmake_wargs")) as (e & He & Hm).
  { intros ca. unfold darwin_branch. by rewrite Hp, Hu. }
  split; [|by exists e].
  unfold configure_call, trace_of. by rewrite He.
Qed.

End OpenMP.

Lemma use_omp_values_witness :
  build_extension (H := posix "/proj")
    (command_with "unix" "macosx-11.0-arm64" false PyNone) pyqubo_ext
    (host_with "darwin" {["USE_OMP" := "1"]})
  = ([], Raise (KeyError "1")).
Proof.
  destruct (use_omp_values (H := posix "/proj")
              (command_with "unix" "macosx-11.0-arm64" false PyNone)
              pyqubo_ext (host_with "darwin" {["USE_OMP" := "1"]}) "1")
    as (_ & _ & _ & _ & e & He & Hm); [reflexivity|reflexivity|done|done|].
  rewrite He. by rewrite Hm.
Defined.

Lemma openmp_disable_never_passed_witness :
  build_extension (H := posix "/proj")
    (command_with "unix" "macosx-11.0-arm64" false PyNone) pyqubo_ext
    (host_with "darwin" ∅)
  = ([], Raise (UnboundLocalError "cmake_wargs")).
Proof.
  destruct (openmp_disable_never_passed (H := posix "/proj")
              (command_with "unix" "macosx-11.0-arm64" false PyNone)
              pyqubo_ext (host_with "darwin" ∅))
    as (_ & _ & e & He & Hm); [reflexivity|reflexivity|].
  rewrite He. by rewrite Hm.
Defined.

(** ** C9: the job count *)

Section Parallel.
Context `{OsPath}.

(** The configure call, read off the argument assembly and the state of
    the build directory. *)
Lemma configure_call_eq self ext h :
  configure_call self ext h =
  match outcome_of (assemble_args self ext) h with
  | Ok (c, _) =>
      if os_path_exists h (build_temp self) then Some c
      else match os_makedirs h (build_temp self) with
           | None => Some c
           | Some _ => None
           end
  | Raise _ => None
  end.
Proof.
  destruct (outcome_of (assemble_args self ext) h) as [[c b]|e] eqn:He.
  - unfold configure_call, trace_of.
    rewrite (build_extension_ok _ _ _ _ _ He). run_M.
    destruct (os_path_exists h (build_temp self)); simpl;
      repeat (case_match; simplify_eq/=); done.
  - unfold configure_call, trace_of.
    by rewrite (build_extension_raise _ _ _ _ He).
Qed.

Lemma darwin_branch_level level h ca :
  darwin_branch (sys_platform (with_parallel_level level h))
    (os_environ (with_parallel_level level h)) ca
  = darwin_branch (sys_platform h) (os_environ h) ca.
Proof.
  unfold darwin_branch, use_omp, archflags_branch, with_parallel_level.
  cbn [sys_platform os_environ].
  by rewrite !lookup_partial_alter_ne.
Qed.

Lemma assemble_args_level jobs level self ext h :
  match outcome_of (assemble_args (with_parallel jobs self) ext)
          (with_parallel_level level h) with
  | Ok (c, _) => Ok c
  | Raise e => Raise e
  end
  = match outcome_of (assemble_args self ext) h with
    | Ok (c, _) => Ok c
    | Raise e => Raise e
    end.
Proof.
  unfold outcome_of. rewrite !assemble_args_unfold. cbn [snd].
  assert (generator_of (with_parallel_level level h) = generator_of h)
    as ->.
  { unfold generator_of, with_parallel_level. cbn [os_environ].
    by rewrite lookup_partial_alter_ne. }
  change (toolchain_branch (with_parallel jobs self))
    with (toolchain_branch self).
  change (output_dir (with_parallel jobs self)) with (output_dir self).
  change (config_name (with_parallel jobs self)) with (config_name self).
  change (get_version (with_parallel jobs self)) with (get_version self).
  change (ninja_importable (with_parallel_level level h))
    with (ninja_importable h).
  change (sys_executable (with_parallel_level level h))
    with (sys_executable h).
  destruct (toolchain_branch _ _ _ _ _ _ _) as [[c1 b1]|e]; [|done].
  rewrite darwin_branch_level.
  by destruct (darwin_branch _ _ _).
Qed.

Lemma config_name_no_jobs self :
  String.prefix "-j" (config_name self) = false.
Proof. unfold config_name. by destruct (debug self). Qed.

(** C9. Without [CMAKE_BUILD_PARALLEL_LEVEL] in the environment and
    with a job count [n] that is set and not zero, the job-count step
    appends ["-j<n>"] to the build arguments, and it is the last
    argument of every build call. With the variable in the
    environment the step appends nothing, and no argument of a build
    call starts with ["-j"]. The configure call is the same whatever
    the job count and whether or not the variable is set. *)
Theorem job_count_argument (self : CMakeBuild) (ext : CMakeExtension)
    (h : Host) :
  (∀ n, os_environ h !! "CMAKE_BUILD_PARALLEL_LEVEL" = None →
        parallel self = PyInt n → n ≠ 0%Z →
        (∀ ba, parallel_branch self (os_environ h) ba
               = ba ++ ["-j" +:+ Str.of_Z n]) ∧
        (∀ b, build_call self ext h = Some b →
              last b = Some ("-j" +:+ Str.of_Z n))) ∧
  (∀ level, os_environ h !! "CMAKE_BUILD_PARALLEL_LEVEL" = Some level →
        (∀ ba, parallel_branch self (os_environ h) ba = ba) ∧
        (∀ b a, build_call self ext h = Some b → a ∈ b →
                Str.startswith a "-j" = false)) ∧
  (∀ jobs level,
     configure_call (with_parallel jobs self) ext
       (with_parallel_level level h)
     = configure_call self ext h).
Proof.
  split; [|split].
  - intros n Hl Hp Hn.
    assert (∀ ba, parallel_branch self (os_environ h) ba
                  = ba ++ ["-j" +:+ Str.of_Z n]) as Hb.
    { intros ba. unfold parallel_branch, requested_jobs.
      rewrite Hl, Hp. by apply Z.eqb_neq in Hn as ->. }
    split; [done|].
    intros b [c Hc]%build_call_inv.
    apply assemble_args_inv in Hc as (c1 & b1 & _ & _ & ->).
    rewrite Hb. apply last_snoc.
  - intros level Hl.
    assert (∀ ba, parallel_branch self (os_environ h) ba = ba) as Hb.
    { intros ba. unfold parallel_branch. by rewrite Hl. }
    split; [done|].
    intros b a [c Hc]%build_call_inv Ha.
    apply assemble_args_inv in Hc as (c1 & b1 & Ht & _ & ->).
    rewrite Hb in Ha.
    apply toolchain_branch_elements in Ht as [_ [->| ->]].
    + by apply elem_of_nil in Ha.
    + revert Ha. cbn [app]. rewrite !elem_of_cons, elem_of_nil.
      intros [->|[->|[]]]; [done|]. apply config_name_no_jobs.
  - intros jobs level. rewrite !configure_call_eq.
    pose proof (assemble_args_level jobs level self ext h) as Ha.
    change (build_temp (with_parallel jobs self)) with (build_temp self).
    change (os_path_exists (with_parallel_level level h))
      with (os_path_exists h).
    change (os_makedirs (with_parallel_level level h))
      with (os_makedirs h).
    destruct (outcome_of (assemble_args (with_parallel _ _) _) _)
      as [[c b]|e];
      destruct (outcome_of (assemble_args self ext) h) as [[c' b']|e'];
      first [discriminate | by injection Ha as ->].
Qed.

End Parallel.

Lemma job_count_argument_witness :
  build_call (H := posix "/proj")
    (command_with "unix" "linux-x86_64" false (PyInt 4)) pyqubo_ext
    (host_with "linux" ∅)
  = Some ["-j4"] ∧
  build_call (H := posix "/proj")
    (command_with "unix" "linux-x86_64" false (PyInt 4)) pyqubo_ext
    (host_with "linux" {["CMAKE_BUILD_PARALLEL_LEVEL" := "2"]})
  = Some [] ∧
  last (default [] (build_call (H := posix "/proj")
                      (command_with "msvc" "win-amd64" true (PyInt 4))
                      pyqubo_ext (host_with "win32" ∅)))
  = Some "-j4".
Proof.
  split; [by vm_compute|]. split; [by vm_compute|].
  destruct (job_count_argument (H := posix "/proj")
              (command_with "msvc" "win-amd64" true (PyInt 4)) pyqubo_ext
              (host_with "win32" ∅)) as (Ha & _ & _).
  destruct (Ha 4%Z) as [_ Hb]; [reflexivity|reflexivity|lia|].
  apply (Hb _). vm_compute. reflexivity.
Defined.

(** ** C7: the architecture flags *)

Lemma findall_arch_cons c s :
  findall_arch (String c s)
  = match match_arch (String c s) with
    | Some (v, rest) => v :: findall_arch rest
    | None => findall_arch s
    end.
Proof.
  simp findall_arch.
  destruct (Logic.inspect (match_arch (String c s))) as [[[v rest]|] Heq];
    cbn [findall_arch_unfold_clause_2]; by rewrite Heq.
Qed.

(** A run of non-space characters is taken whole, up to the end of the
    string or to the space that follows it. *)
Lemma span_nospace_app v rest :
  Str.nospace v = true →
  rest = "" ∨ (∃ c r, rest = String c r ∧ Str.isspace c = true) →
  span_nospace (v +:+ rest) = (v, rest).
Proof.
  intros Hv Hr. induction v as [|a v IH].
  - rewrite str_app_nil_l.
    destruct Hr as [->|(c & r & -> & Hc)]; simpl; [done|]. by rewrite Hc.
  - rewrite str_app_cons. simpl in *.
    apply andb_true_iff in Hv as [Ha%negb_true_iff Hv].
    by rewrite Ha, (IH Hv).
Qed.

Lemma match_arch_token v rest :
  v ≠ "" → Str.nospace v = true →
  rest = "" ∨ (∃ c r, rest = String c r ∧ Str.isspace c = true) →
  match_arch ("-arch " +:+ v +:+ rest) = Some (v, rest).
Proof.
  intros Hne Hv Hr. unfold match_arch.
  change (strip_prefix "-arch " ("-arch " +:+ v +:+ rest))
    with (Some (v +:+ rest)).
  cbv beta iota. rewrite span_nospace_app by done. by destruct v.
Qed.

Lemma findall_arch_token v rest :
  v ≠ "" → Str.nospace v = true →
  rest = "" ∨ (∃ c r, rest = String c r ∧ Str.isspace c = true) →
  findall_arch ("-arch " +:+ v +:+ rest) = v :: findall_arch rest.
Proof.
  intros Hne Hv Hr.
  pose proof (match_arch_token v rest Hne Hv Hr) as Hm.
  change ("-arch " +:+ v +:+ rest)
    with (String "-" ("arch " +:+ v +:+ rest)) in *.
  by rewrite findall_arch_cons, Hm.
Qed.

(** No match starts at a space: white space in front is skipped. *)
Lemma findall_arch_blank ws s :
  Str.blank ws = true → findall_arch (ws +:+ s) = findall_arch s.
Proof.
  induction ws as [|c ws IH]; [done|]. cbn [Str.blank].
  intros [Hc Hws]%andb_true_iff.
  rewrite str_app_cons, findall_arch_cons.
  assert (match_arch (String c (ws +:+ s)) = None) as ->; [|by apply IH].
  unfold match_arch. cbn [strip_prefix].
  destruct (Ascii.eqb_spec "-" c) as [<-|]; [done|reflexivity].
Qed.

(** A flags string that lists [vs] is read back as [vs]: as many
    entries, in the order of the string. *)
Lemma findall_arch_lists flags vs :
  lists_archs flags vs → findall_arch flags = vs.
Proof.
  induction 1 as [ws Hws|ws v rest vs Hws Hne Hv Hr _ IH].
  - rewrite <- (str_app_nil_r ws), findall_arch_blank by done.
    by simp findall_arch.
  - rewrite findall_arch_blank, findall_arch_token by done.
    by rewrite IH.
Qed.

Lemma arch_flags_cons v vs :
  arch_flags (v :: vs)
  = "-arch " +:+ v +:+
    match vs with [] => "" | _ :: _ => " " +:+ arch_flags vs end.
Proof.
  unfold arch_flags, Str.join. destruct vs as [|v' vs]; simpl.
  - by rewrite str_app_nil_r.
  - by rewrite str_app_assoc.
Qed.

(** The tokens separated by one space are such a string. *)
Lemma arch_flags_lists vs :
  Forall (λ v, v ≠ "" ∧ Str.nospace v = true) vs →
  lists_archs (arch_flags vs) vs.
Proof.
  induction 1 as [|v vs [Hne Hv] Hvs IH]; [by constructor|].
  rewrite arch_flags_cons.
  apply (lists_archs_cons "" v _ vs); [done..| |].
  - destruct vs; [by left|right]. by eexists " "%char, _.
  - destruct vs as [|v' vs']; [by constructor|].
    inversion IH as [|ws v0 rest vs0 Hws Hne0 Hv0 Hr Hrest Heq]. subst.
    by apply (lists_archs_cons (String " " ws) v' rest vs').
Qed.

Section ArchFlags.
Context `{OsPath}.

Lemma darwin_branch_on platform environ ca c :
  Str.startswith platform "darwin" = true →
  darwin_branch platform environ ca = Ok c →
  use_omp environ = Ok true ∧ c = archflags_branch environ ca.
Proof.
  intros Hp. unfold darwin_branch. rewrite Hp.
  destruct (use_omp environ) as [[]|]; simpl; [|done..].
  by intros [= <-].
Qed.

Lemma darwin_branch_on_ok platform environ ca :
  Str.startswith platform "darwin" = true →
  use_omp environ = Ok true →
  darwin_branch platform environ ca = Ok (archflags_branch environ ca).
Proof. intros Hp Hu. unfold darwin_branch. by rewrite Hp, Hu. Qed.

(** C7 (as the code has it). On an Apple host whose [ARCHFLAGS] lists
    the architectures [vs] (each a non-empty run of non-space
    characters) as tokens [-arch <value>] set apart by white space, the
    list extracted by line 96 is [vs] itself: as many entries, in the
    order of the string; the tokens of [vs] separated by one space are
    such a string. The flags step (lines 96-98) appends one define that
    lists them joined by semicolons when [vs] is not empty, and nothing
    when it is empty (or [ARCHFLAGS] is unset). But the step comes
    after line 94. A configure call is made only on a host on which the
    OpenMP switch resolves to [True] (and is made there when the
    compiler is not MSVC and the build directory is ready): the define
    is then its last argument, or, for an empty [vs], none of its
    arguments is such a define. On a host on which the switch resolves
    to [False], as it does when [USE_OMP] is unset, line 94 reads the
    unbound name [cmake_wargs] before line 96 is reached: the method
    ends with an exception and an empty trace, there is no configure
    call, and no define reaches [cmake], whatever [ARCHFLAGS] lists. *)
Theorem archflags_define_needs_openmp (self : CMakeBuild)
    (ext : CMakeExtension) (h : Host) (flags : string) (vs : list string) :
  Str.startswith (sys_platform h) "darwin" = true →
  lists_archs flags vs →
  os_environ h !! "ARCHFLAGS" = Some flags →
  findall_arch flags = vs ∧
  (∀ vs', Forall (λ v, v ≠ "" ∧ Str.nospace v = true) vs' →
          lists_archs (arch_flags vs') vs') ∧
  (∀ ca, archflags_branch (os_environ h) ca
         = match vs with
           | [] => ca
           | _ :: _ =>
               ca ++ ["-DCMAKE_OSX_ARCHITECTURES=" +:+ Str.join ";" vs]
           end) ∧
  (∀ environ ca, environ !! "ARCHFLAGS" = None →
                 archflags_branch environ ca = ca) ∧
  (∀ c, configure_call self ext h = Some c →
        match vs with
        | [] => ∀ a, a ∈ c →
                     String.prefix "-DCMAKE_OSX_ARCHITECTURES=" a = false
        | _ :: _ =>
            last c
            = Some ("-DCMAKE_OSX_ARCHITECTURES=" +:+ Str.join ";" vs)
        end) ∧
  (use_omp (os_environ h) = Ok true →
   compiler_type self ≠ "msvc" →
   build_temp_ready self h →
   is_Some (configure_call self ext h)) ∧
  (∀ c, configure_call self ext h = Some c →
        use_omp (os_environ h) = Ok true) ∧
  (use_omp (os_environ h) = Ok false →
   configure_call self ext h = None ∧
   ∃ e, build_extension self ext h = ([], Raise e) ∧
        (compiler_type self ≠ "msvc" →
         e = UnboundLocalError "cmake_wargs")).
Proof.
  intros Hp Hvs Hf.
  pose proof (findall_arch_lists flags vs Hvs) as Hfind.
  assert (∀ ca, archflags_branch (os_environ h) ca
                = match vs with
                  | [] => ca
                  | _ :: _ =>
                      ca ++ ["-DCMAKE_OSX_ARCHITECTURES="
                               +:+ Str.join ";" vs]
                  end) as Hstep.
  { intros ca. unfold archflags_branch. rewrite Hf. cbn [from_option id].
    rewrite Hfind. by destruct vs. }
  split; [done|]. split; [apply arch_flags_lists|].
  split; [done|]. split; [|split; [|split; [|split]]].
  - intros environ ca Hnone. unfold archflags_branch.
    rewrite Hnone. cbn [from_option id]. by simp findall_arch.
  - intros c [b Hc]%configure_call_inv.
    apply assemble_args_inv in Hc as (c1 & b1 & Ht & Hd & _).
    apply (darwin_branch_on _ _ _ _ Hp) in Hd as [_ ->].
    rewrite Hstep. destruct vs as [|v vs']; [|apply last_snoc].
    intros a Ha.
    apply toolchain_branch_elements in Ht as [Ht _].
    destruct (Ht _ Ha) as [Hb|Hb]; revert Hb.
    + unfold baseline_args. rewrite !elem_of_cons, elem_of_nil.
      intros [->|[->|[->|[->|[]]]]]; reflexivity.
    + rewrite !elem_of_cons, elem_of_nil.
      intros [->|[->|[->|[->|[->|[->|[->|[]]]]]]]]; reflexivity.
  - intros Hu Hm Hd.
    destruct (toolchain_branch_not_msvc self (generator_of h)
                (config_name self) (output_dir self ext)
                (ninja_importable h)
                (baseline_args (output_dir self ext) (sys_executable h)
                   (get_version self) (config_name self)) [] Hm)
      as [c1 Ht].
    eexists. eapply configure_call_intro; [|done].
    eapply assemble_args_intro; [done|].
    by apply darwin_branch_on_ok.
  - intros c [b Hc]%configure_call_inv.
    apply assemble_args_inv in Hc as (c1 & b1 & Ht & Hd & _).
    by apply (darwin_branch_on _ _ _ _ Hp) in Hd as [Hu _].
  - intros Hu.
    destruct (darwin_branch_raise self ext h
                (UnboundLocalError "cmake_wargs")) as (e & He & Hm).
    { intros ca. unfold darwin_branch. by rewrite Hp, Hu. }
    split; [|by exists e].
    unfold configure_call, trace_of. by rewrite He.
Qed.

End ArchFlags.

Lemma archflags_define_needs_openmp_witness :
  findall_arch "-arch x86_64 -arch arm64" = ["x86_64"; "arm64"] ∧
  configure_call (H := posix "/proj")
    (command_with "unix" "macosx-11.0-universal2" false PyNone)
    pyqubo_ext
    (host_with "darwin" {["ARCHFLAGS" := "-arch x86_64 -arch arm64"]})
  = None ∧
  build_extension (H := posix "/proj")
    (command_with "unix" "macosx-11.0-universal2" false PyNone)
    pyqubo_ext
    (host_with "darwin" {["ARCHFLAGS" := "-arch x86_64 -arch arm64"]})
  = ([], Raise (UnboundLocalError "cmake_wargs")).
Proof.
  destruct (archflags_define_needs_openmp (H := posix "/proj")
              (command_with "unix" "macosx-11.0-universal2" false PyNone)
              pyqubo_ext
              (host_with "darwin"
                 {["ARCHFLAGS" := "-arch x86_64 -arch arm64"]})
              "-arch x86_64 -arch arm64" ["x86_64"; "arm64"])
    as (Hfind & _ & _ & _ & _ & _ & _ & Hoff).
  - reflexivity.
  - apply (arch_flags_lists ["x86_64"; "arm64"]). repeat constructor; done.
  - reflexivity.
  - destruct Hoff as (Hc & e & He & Hm); [by vm_compute|].
    split; [exact Hfind|]. split; [exact Hc|].
    rewrite He. by rewrite Hm.
Defined.

(** ** C2: the test command *)

Section TestCommand.
Context `{OsPath}.

(** C2 (as the code has it). [GoogleTestCommand.run] first runs the
    inherited Python test runner. When that raises, the run ends with
    the exception and nothing else is done: no native phase. When it
    returns, the two messages are printed and the native test build is
    launched; once it has run, whatever its exit status, the native
    test binary is launched, and once that has run, whatever its exit
    status, the method returns normally. So the exit status of the
    process is zero exactly when the Python runner returns and both
    children could be launched, and the exit statuses of the children
    play no part in it. *)
Theorem GoogleTestCommand_run_phases (self : GoogleTestCommand)
    (h : Host) :
  let cwd := join "build" (cpplibdir self) in
  let banner :=
    [EvPrint (nl +:+ "Python tests complete, now running C++ tests..."
                +:+ nl);
     EvPrint (join "build/" (cpplibdir self))] in
  let make := EvSpawn ["make pyqubo_test"] cwd true in
  let test := EvSpawn ["./tests/pyqubo_test"] cwd true in
  GoogleTestCommand_run self h =
  match super_run h with
  | Some e => ([EvSuperRun], Raise e)
  | None =>
      match run_child h ["make pyqubo_test"] cwd true with
      | NotStarted e => (EvSuperRun :: banner ++ [make], Raise e)
      | Exited _ =>
          (EvSuperRun :: banner ++ [make; test],
           match run_child h ["./tests/pyqubo_test"] cwd true with
           | NotStarted e => Raise e
           | Exited _ => Ok tt
           end)
      end
  end ∧
  (exit_status (outcome_of (GoogleTestCommand_run self) h) = 0%Z ↔
   super_run h = None ∧
   (∃ s, run_child h ["make pyqubo_test"] cwd true = Exited s) ∧
   (∃ s, run_child h ["./tests/pyqubo_test"] cwd true = Exited s)).
Proof.
  intros cwd banner make test.
  assert (GoogleTestCommand_run self h =
          match super_run h with
          | Some e => ([EvSuperRun], Raise e)
          | None =>
              match run_child h ["make pyqubo_test"] cwd true with
              | NotStarted e => (EvSuperRun :: banner ++ [make], Raise e)
              | Exited _ =>
                  (EvSuperRun :: banner ++ [make; test],
                   match run_child h ["./tests/pyqubo_test"] cwd true
                   with
                   | NotStarted e => Raise e
                   | Exited _ => Ok tt
                   end)
              end
          end) as Hrun.
  { unfold GoogleTestCommand_run. run_M. subst cwd banner make test.
    destruct (super_run h); [done|].
    destruct (run_child h ["make pyqubo_test"] _ true); [done|].
    by destruct (run_child h ["./tests/pyqubo_test"] _ true). }
  split; [done|].
  unfold outcome_of. rewrite Hrun.
  destruct (super_run h) as [e|]; cbn [snd exit_status].
  { split; [done|]. by intros [? _]. }
  destruct (run_child h ["make pyqubo_test"] cwd true) as [e|s];
    cbn [snd exit_status].
  { split; [done|]. by intros (_ & [? ?] & _). }
  destruct (run_child h ["./tests/pyqubo_test"] cwd true) as [e|s'];
    cbn [snd exit_status].
  { split; [done|]. by intros (_ & _ & [? ?]). }
  split; [|done]. intros _. eauto.
Qed.

End TestCommand.

(** C2 (as stated) fails: on [native_tests_fail] the native test binary
    exits with status 1 and the exit status of the test command is
    zero all the same. *)
Lemma native_failure_exits_zero :
  run_child native_tests_fail ["./tests/pyqubo_test"]
    (posixpath.join "build" "temp.linux-x86_64-3.8") true = Exited 1 ∧
  spawned (trace_of (GoogleTestCommand_run (H := posix "/proj")
                       (mkTest "temp.linux-x86_64-3.8")) native_tests_fail)
  = [["make pyqubo_test"]; ["./tests/pyqubo_test"]] ∧
  exit_status (outcome_of (GoogleTestCommand_run (H := posix "/proj")
                             (mkTest "temp.linux-x86_64-3.8"))
                 native_tests_fail) = 0%Z.
Proof. by vm_compute. Qed.

(** ** C10: the extension descriptor *)

Lemma split_nonempty c s : Str.split c s ≠ [].
Proof.
  destruct s as [|a s]; simpl; [done|].
  destruct (Ascii.eqb a c); [done|]. by destruct (Str.split c s).
Qed.

(** A separator at the end adds one empty field at the end. *)
Lemma split_snoc c s :
  Str.split c (s +:+ String c "") = Str.split c s ++ [""].
Proof.
  induction s as [|a s IH].
  - rewrite str_app_nil_l. simpl. by rewrite Ascii.eqb_refl.
  - rewrite str_app_cons. simpl. rewrite IH.
    destruct (Ascii.eqb a c); [done|].
    pose proof (split_nonempty c s).
    by destruct (Str.split c s).
Qed.

Lemma truthy_nonempty s : Str.truthy s = true ↔ s ≠ "".
Proof. by destruct s. Qed.

Lemma endswith_slash_cons a s :
  s ≠ "" → Str.endswith (String a s) "/" = Str.endswith s "/".
Proof.
  intros Hs. rewrite endswith_cons. destruct s as [|b s]; [done|].
  cbn [String.eqb]. by destruct (Ascii.eqb a "/").
Qed.

Lemma prefix_cons a p b s :
  String.prefix (String a p) (String b s)
  = if ascii_dec a b then String.prefix p s else false.
Proof. reflexivity. Qed.

Lemma prefix_nil s : String.prefix "" s = true.
Proof. by destruct s. Qed.

Lemma prefix_cons_nil a p : String.prefix (String a p) "" = false.
Proof. reflexivity. Qed.

Lemma endswith_one a : Str.endswith (String a "") "/" = Ascii.eqb a "/".
Proof.
  rewrite endswith_cons, endswith_nil. cbn [String.eqb].
  by destruct (Ascii.eqb a "/").
Qed.

Ltac prefix_steps :=
  rewrite ?str_app_cons, ?str_app_nil_l,
    ?prefix_cons, ?prefix_nil, ?prefix_cons_nil.

(** A slash added after a character that is not one leaves the count of
    initial slashes as it was. *)
Lemma initial_slashes_snoc s :
  s ≠ "" → Str.endswith s "/" = false →
  posixpath.initial_slashes (s +:+ "/") = posixpath.initial_slashes s.
Proof.
  intros Hs He. unfold posixpath.initial_slashes, Str.startswith.
  destruct s as [|a [|b [|c s]]]; [done|..].
  - rewrite endswith_one in He. apply Ascii.eqb_neq in He.
    prefix_steps. by destruct (ascii_dec "/" a) as [<-|].
  - rewrite endswith_slash_cons, endswith_one in He by done.
    apply Ascii.eqb_neq in He.
    prefix_steps. destruct (ascii_dec "/" a) as [<-|]; [|done].
    by destruct (ascii_dec "/" b) as [<-|].
  - prefix_steps. destruct (ascii_dec "/" a); [|done].
    destruct (ascii_dec "/" b); [|done].
    by destruct (ascii_dec "/" c).
Qed.

Lemma normpath_snoc s :
  s ≠ "" → Str.endswith s "/" = false →
  posixpath.normpath (s +:+ "/") = posixpath.normpath s.
Proof.
  intros Hs He. unfold posixpath.normpath.
  assert (Str.truthy (s +:+ "/") = true) as -> by by destruct s.
  rewrite (proj2 (truthy_nonempty s) Hs). cbn [negb].
  rewrite initial_slashes_snoc by done.
  change (s +:+ "/") with (s +:+ String posixpath.slash "").
  by rewrite split_snoc, foldl_app.
Qed.

(** The working directory of a process is a normalized path; the empty
    path resolves to it. *)
Lemma abspath_empty cwd :
  posixpath.normpath cwd = cwd → posixpath.abspath cwd "" = cwd.
Proof.
  intros Hn. unfold posixpath.abspath, posixpath.isabs, posixpath.join,
    Str.startswith.
  rewrite prefix_cons_nil. cbn [negb].
  destruct cwd as [|a cwd]; [done|]. cbn [Str.truthy negb orb].
  destruct (Str.endswith (String a cwd) "/") eqn:He.
  - by rewrite str_app_nil_r.
  - rewrite str_app_nil_r, normpath_snoc by done. exact Hn.
Qed.

Lemma isabs_inv p : posixpath.isabs p = true → ∃ r, p = String "/" r.
Proof.
  unfold posixpath.isabs, Str.startswith.
  intros [r ->]%prefix_split. by exists r.
Qed.

Lemma normpath_isabs p :
  posixpath.isabs p = true → posixpath.isabs (posixpath.normpath p) = true.
Proof.
  intros Hp. destruct (isabs_inv _ Hp) as [r ->].
  unfold posixpath.normpath. cbn [Str.truthy negb].
  assert (∃ k, posixpath.initial_slashes (String "/" r) = S k) as [k ->].
  { unfold posixpath.initial_slashes. unfold posixpath.isabs in Hp.
    rewrite Hp.
    destruct (_ && _); by eexists. }
  cbn [posixpath.slashes]. rewrite str_app_cons.
  cbn [Str.truthy]. unfold posixpath.isabs, Str.startswith.
  rewrite prefix_cons, prefix_nil. by destruct (ascii_dec _ _).
Qed.

Lemma join_isabs cwd p :
  posixpath.isabs cwd = true → posixpath.isabs (posixpath.join cwd p) = true.
Proof.
  intros [r ->]%isabs_inv. unfold posixpath.join.
  destruct (Str.startswith p "/") eqn:Hp; [exact Hp|].
  unfold posixpath.isabs, Str.startswith.
  destruct (_ || _); rewrite str_app_cons, prefix_cons, prefix_nil;
    by destruct (ascii_dec _ _).
Qed.

Lemma abspath_isabs cwd p :
  posixpath.isabs cwd = true →
  posixpath.isabs (posixpath.abspath cwd p) = true.
Proof.
  intros Hc. unfold posixpath.abspath. apply normpath_isabs.
  destruct (posixpath.isabs p) eqn:Hp; cbn [negb]; [done|].
  by apply join_isabs.
Qed.

(** C10. [CMakeExtension(name, sourcedir)] keeps the name, hands the
    empty list of sources to [Extension] and stores as [sourcedir] the
    result of [os.path.abspath] on its argument, the empty string when
    the argument is omitted. On a POSIX host whose working directory is
    [cwd] that result is [normpath] of the argument, joined to [cwd]
    when it is relative; without an argument it is [cwd] itself, and it
    is an absolute path whenever [cwd] is one. *)
Theorem CMakeExtension_init_fields (cwd name : string) :
  posixpath.normpath cwd = cwd →
  (∀ (P : OsPath) (sourcedir : option string),
     ext_name (CMakeExtension_init name sourcedir) = name ∧
     ext_sources (CMakeExtension_init name sourcedir) = [] ∧
     ext_sourcedir (CMakeExtension_init name sourcedir)
     = abspath (default "" sourcedir)) ∧
  (∀ p, ext_sourcedir (CMakeExtension_init (H := posix cwd) name (Some p))
        = posixpath.normpath
            (if posixpath.isabs p then p else posixpath.join cwd p)) ∧
  ext_sourcedir (CMakeExtension_init (H := posix cwd) name None) = cwd ∧
  (posixpath.isabs cwd = true →
   ∀ sourcedir,
     posixpath.isabs
       (ext_sourcedir (CMakeExtension_init (H := posix cwd) name sourcedir))
     = true).
Proof.
  intros Hn. split; [done|]. split; [|split].
  - intros p. cbn. unfold posixpath.abspath.
    by destruct (posixpath.isabs p).
  - cbn. by apply abspath_empty.
  - intros Hc sourcedir. cbn. by apply abspath_isabs.
Qed.

Lemma CMakeExtension_init_fields_witness :
  ext_sources pyqubo_ext = [] ∧ ext_sourcedir pyqubo_ext = "/proj".
Proof.
  split; [reflexivity|].
  apply (CMakeExtension_init_fields "/proj" "pyqubo"). reflexivity.
Defined.

(** * Further properties of the build driver *)

(** ** The run after the argument assembly (lines 109-117) *)

Section Run.
Context `{OsPath}.

(** The method from line 109 on, case by case. *)
Lemma build_extension_run self ext h c b :
  outcome_of (assemble_args self ext) h = Ok (c, b) →
  build_extension self ext h =
  let pre := if os_path_exists h (build_temp self) then []
             else [EvMakedirs (build_temp self)] in
  let conf := ["cmake"; ext_sourcedir ext] ++ c in
  let bld := ["cmake"; "--build"; "."] ++ b in
  match (if os_path_exists h (build_temp self) then None
         else os_makedirs h (build_temp self)) with
  | Some e => (pre, Raise e)
  | None =>
      match run_child h conf (build_temp self) false with
      | NotStarted e => (pre ++ [configure_event self ext c], Raise e)
      | Exited s =>
          if (s =? 0)%Z then
            match run_child h bld (build_temp self) false with
            | NotStarted e => (full_trace self ext h c b, Raise e)
            | Exited s' =>
                (full_trace self ext h c b,
                 if (s' =? 0)%Z then Ok tt
                 else Raise (CalledProcessError s' bld))
            end
          else (pre ++ [configure_event self ext c],
                Raise (CalledProcessError s conf))
      end
  end.
Proof.
  intros He. rewrite (build_extension_ok _ _ _ _ _ He).
  unfold full_trace, configure_event, build_event. run_M.
  destruct (os_path_exists h (build_temp self)); simpl.
  - destruct (run_child h _ _ false) as [e|s]; [done|].
    destruct (s =? 0)%Z; simpl; [|done].
    destruct (run_child h _ _ false) as [e|s']; [done|].
    by destruct (s' =? 0)%Z.
  - destruct (os_makedirs h (build_temp self)); [done|].
    destruct (run_child h _ _ false) as [e|s]; [done|].
    destruct (s =? 0)%Z; simpl; [|done].
    destruct (run_child h _ _ false) as [e|s']; [done|].
    by destruct (s' =? 0)%Z.
Qed.

Lemma build_temp_ready_dec self h :
  build_temp_ready self h ↔
  (if os_path_exists h (build_temp self) then None
   else os_makedirs h (build_temp self)) = None.
Proof.
  unfold build_temp_ready.
  destruct (os_path_exists h (build_temp self)); [by intuition|].
  split; [by intros [|]|by right].
Qed.

(** X1. [build_extension] returns normally exactly when the argument
    lists are assembled without an exception, the build directory
    exists or is made, and both children, the configure call and then
    the build call, exit with status 0. Its trace is then the
    directory (if it had to be made) and the two calls, in this
    order. *)
Theorem build_extension_succeeds_iff (self : CMakeBuild)
    (ext : CMakeExtension) (h : Host) :
  outcome_of (build_extension self ext) h = Ok tt ↔
  ∃ c b,
    outcome_of (assemble_args self ext) h = Ok (c, b) ∧
    build_temp_ready self h ∧
    run_child h (["cmake"; ext_sourcedir ext] ++ c) (build_temp self) false
      = Exited 0 ∧
    run_child h (["cmake"; "--build"; "."] ++ b) (build_temp self) false
      = Exited 0 ∧
    trace_of (build_extension self ext) h = full_trace self ext h c b.
Proof.
  unfold outcome_of at 1, trace_of.
  destruct (outcome_of (assemble_args self ext) h) as [[c b]|e] eqn:He.
  - pose proof (build_extension_run _ _ _ _ _ He) as Hrun.
    cbv zeta in Hrun. rewrite Hrun. clear Hrun.
    pose proof (build_temp_ready_dec self h) as Hd.
    destruct (if os_path_exists h (build_temp self) then None
              else os_makedirs h (build_temp self)) as [e|].
    { split; [done|]. intros (c' & b' & _ & Hr & _).
      by apply Hd in Hr. }
    destruct (run_child h (["cmake"; ext_sourcedir ext] ++ c) _ false)
      as [e|s] eqn:Hc.
    { split; [done|]. intros (c' & b' & [= <- <-] & _ & Hc' & _).
      by rewrite Hc in Hc'. }
    destruct (Z.eqb_spec s 0) as [->|Hs].
    2:{ split; [done|]. intros (c' & b' & [= <- <-] & _ & Hc' & _).
        rewrite Hc in Hc'. by injection Hc'. }
    destruct (run_child h (["cmake"; "--build"; "."] ++ b) _ false)
      as [e|s'] eqn:Hb.
    { split; [done|]. intros (c' & b' & [= <- <-] & _ & _ & Hb' & _).
      by rewrite Hb in Hb'. }
    destruct (Z.eqb_spec s' 0) as [->|Hs'].
    + split; [|done]. intros _. exists c, b.
      split; [done|]. split; [by apply Hd|]. by rewrite Hc, Hb.
    + split; [done|]. intros (c' & b' & [= <- <-] & _ & _ & Hb' & _).
      rewrite Hb in Hb'. by injection Hb'.
  - rewrite (build_extension_raise _ _ _ _ He). cbn [snd].
    split; [done|]. by intros (c & b & ? & _).
Qed.

(** X2. A configure call that exits with a status other than 0 ends the
    method with [CalledProcessError] for that status and command line,
    and the build call is not made: the configure call is the only
    child of the run. *)
Theorem configure_failure_stops_build (self : CMakeBuild)
    (ext : CMakeExtension) (h : Host) (c b : list string) (s : Z) :
  outcome_of (assemble_args self ext) h = Ok (c, b) →
  build_temp_ready self h →
  run_child h (["cmake"; ext_sourcedir ext] ++ c) (build_temp self) false
    = Exited s →
  s ≠ 0%Z →
  outcome_of (build_extension self ext) h
    = Raise (CalledProcessError s (["cmake"; ext_sourcedir ext] ++ c)) ∧
  spawned (trace_of (build_extension self ext) h)
    = [["cmake"; ext_sourcedir ext] ++ c] ∧
  build_call self ext h = None.
Proof.
  intros He Hd Hc Hs.
  assert (build_extension self ext h =
          ((if os_path_exists h (build_temp self) then []
            else [EvMakedirs (build_temp self)])
             ++ [configure_event self ext c],
           Raise (CalledProcessError s (["cmake"; ext_sourcedir ext] ++ c))))
    as Hrun.
  { rewrite (build_extension_run _ _ _ _ _ He). cbv zeta.
    apply build_temp_ready_dec in Hd as ->. rewrite Hc.
    by apply Z.eqb_neq in Hs as ->. }
  unfold build_call, outcome_of, trace_of. rewrite Hrun. cbn [fst snd].
  split; [done|]. unfold configure_event.
  by destruct (os_path_exists h (build_temp self)).
Qed.

(** X3. Whatever happens, the events of [build_extension] are an initial
    part of one fixed sequence: the making of the build directory, only
    if it does not exist, then the configure call, then the build call.
    So both children run [cmake] in the build directory without a
    shell, there are at most two of them, and nothing is logged when
    the argument assembly raises. *)
Theorem build_extension_trace_shape (self : CMakeBuild)
    (ext : CMakeExtension) (h : Host) :
  match outcome_of (assemble_args self ext) h with
  | Ok (c, b) =>
      trace_of (build_extension self ext) h
      `prefix_of` full_trace self ext h c b
  | Raise e => build_extension self ext h = ([], Raise e)
  end ∧
  (length (spawned (trace_of (build_extension self ext) h)) ≤ 2)%nat ∧
  (∀ argv cwd shell,
     EvSpawn argv cwd shell ∈ trace_of (build_extension self ext) h →
     head argv = Some "cmake" ∧ cwd = build_temp self ∧ shell = false) ∧
  (∀ path, EvMakedirs path ∈ trace_of (build_extension self ext) h →
           path = build_temp self ∧
           os_path_exists h (build_temp self) = false).
Proof.
  destruct (outcome_of (assemble_args self ext) h) as [[c b]|e] eqn:He.
  - assert (trace_of (build_extension self ext) h
            `prefix_of` full_trace self ext h c b) as Hpre.
    { unfold trace_of. rewrite (build_extension_run _ _ _ _ _ He).
      cbv zeta. unfold full_trace.
      destruct (if os_path_exists h (build_temp self) then None
                else os_makedirs h (build_temp self)) as [e|].
      { by eexists. }
      destruct (run_child h (["cmake"; ext_sourcedir ext] ++ c) _ false)
        as [e|s].
      { exists [build_event self b]. cbn [fst].
        by rewrite <- (assoc_L (++)). }
      destruct (s =? 0)%Z.
      2:{ exists [build_event self b]. cbn [fst].
          by rewrite <- (assoc_L (++)). }
      destruct (run_child h (["cmake"; "--build"; "."] ++ b) _ false);
        reflexivity. }
    split; [done|].
    destruct Hpre as [k Hk]. split; [|split].
    + assert (length (spawned (full_trace self ext h c b)) = 2%nat) as Hl.
      { unfold full_trace, configure_event, build_event.
        by destruct (os_path_exists h (build_temp self)). }
      rewrite Hk in Hl. unfold spawned in *.
      rewrite omap_app, length_app in Hl. lia.
    + intros argv cwd shell Hin.
      assert (EvSpawn argv cwd shell ∈ full_trace self ext h c b) as Hf.
      { rewrite Hk. apply elem_of_app. by left. }
      revert Hf. unfold full_trace, configure_event, build_event.
      destruct (os_path_exists h (build_temp self));
        rewrite ?elem_of_app, !elem_of_cons, !elem_of_nil;
        intros Hf; repeat destruct Hf as [Hf|Hf];
        first [done | discriminate | by injection Hf as -> -> ->].
    + intros path Hin.
      assert (EvMakedirs path ∈ full_trace self ext h c b) as Hf.
      { rewrite Hk. apply elem_of_app. by left. }
      revert Hf. unfold full_trace, configure_event, build_event.
      destruct (os_path_exists h (build_temp self));
        rewrite ?elem_of_app, !elem_of_cons, !elem_of_nil;
        intros Hf; repeat destruct Hf as [Hf|Hf];
        first [done | discriminate | by injection Hf as ->].
  - pose proof (build_extension_raise _ _ _ _ He) as Hr.
    split; [done|]. unfold trace_of. rewrite Hr. cbn [fst].
    split; [simpl; lia|].
    split; intros; by apply elem_of_nil in H0.
Qed.

End Run.

(** ** The branches, case by case *)

Section Cases.
Context `{OsPath}.

Lemma not_msvc_eqb self :
  compiler_type self ≠ "msvc" →
  negb (String.eqb (compiler_type self) "msvc") = true.
Proof. by intros ->%String.eqb_neq. Qed.

(** What the compiler branch returns, by compiler and generator. *)
Lemma toolchain_branch_cases self g cfg extdir ninja ca ba c1 b1 :
  toolchain_branch self g cfg extdir ninja ca ba = Ok (c1, b1) →
  (compiler_type self ≠ "msvc" ∧ b1 = ba ∧
   c1 = ca ++ (if negb (Str.truthy g) && ninja then ["-GNinja"] else []))
  ∨ (compiler_type self = "msvc" ∧ single_config g = true ∧
     c1 = ca ∧ b1 = ba)
  ∨ (compiler_type self = "msvc" ∧ single_config g = false ∧
     b1 = ba ++ ["--config"; cfg] ∧
     ∃ archpart,
       c1 = ca ++ archpart ++
              ["-DCMAKE_LIBRARY_OUTPUT_DIRECTORY_" +:+ Str.upper cfg
                 +:+ "=" +:+ extdir] ∧
       ((contains_arch g = true ∧ archpart = []) ∨
        (contains_arch g = false ∧
         ∃ arch, subscript PLAT_TO_CMAKE (plat_name self) = Ok arch ∧
                 archpart = ["-A"; arch]))).
Proof.
  unfold toolchain_branch.
  destruct (String.eqb_spec (compiler_type self) "msvc") as [Hm|Hm];
    cbn [negb].
  - destruct (single_config g) eqn:Hs; cbn [negb andb].
    { intros [= <- <-]. right. by left. }
    destruct (contains_arch g) eqn:Ha; cbn [negb].
    + intros [= <- <-]. right. right.
      do 3 (split; [done|]). exists []. eauto.
    + destruct (subscript _ _) as [arch|e] eqn:Hk; [|done].
      intros [= <- <-]. right. right.
      do 3 (split; [done|]). exists ["-A"; arch].
      split; [by rewrite <- (assoc_L (++))|]. right. eauto.
  - destruct (negb (Str.truthy g)); [destruct ninja|];
      intros [= <- <-]; left; by rewrite ?app_nil_r.
Qed.

(** The compiler branch raises only through the platform table. *)
Lemma toolchain_branch_raise self g cfg extdir ninja ca ba e :
  toolchain_branch self g cfg extdir ninja ca ba = Raise e ↔
  compiler_type self = "msvc" ∧ single_config g = false ∧
  contains_arch g = false ∧ PLAT_TO_CMAKE !! plat_name self = None ∧
  e = KeyError (plat_name self).
Proof.
  unfold toolchain_branch, subscript.
  destruct (String.eqb_spec (compiler_type self) "msvc") as [Hm|Hm];
    cbn [negb].
  2:{ split; [|by intros [? _]].
      by destruct (negb (Str.truthy g)); [destruct ninja|]. }
  destruct (single_config g); cbn [negb andb];
    [split; [done|by intros (_ & ? & _)]|].
  destruct (contains_arch g); cbn [negb];
    [split; [done|by intros (_ & _ & ? & _)]|].
  destruct (PLAT_TO_CMAKE !! plat_name self) as [arch|].
  - split; [done|]. by intros (_ & _ & _ & ? & _).
  - split; [by intros [= <-]|]. by intros (_ & _ & _ & _ & ->).
Qed.

(** The switch raises only on a value that is neither literal. *)
Lemma use_omp_raise environ e :
  use_omp environ = Raise e ↔
  ∃ v, environ !! "USE_OMP" = Some v ∧ v ≠ "True" ∧ v ≠ "False" ∧
       e = KeyError v.
Proof.
  split.
  - unfold use_omp, subscript, USE_OMP_TABLE.
    destruct (environ !! "USE_OMP") as [v|]; cbn [from_option id];
      [|done].
    rewrite !lookup_insert, lookup_empty.
    repeat case_decide; try done.
    intros [= <-]. exists v. by repeat split.
  - intros (v & Hv & Ht & Hf & ->). by apply use_omp_unknown.
Qed.

(** The switch is on only for the literal ["True"]. *)
Lemma use_omp_true environ :
  use_omp environ = Ok true ↔ environ !! "USE_OMP" = Some "True".
Proof.
  unfold use_omp, subscript, USE_OMP_TABLE.
  destruct (environ !! "USE_OMP") as [v|]; cbn [from_option id];
    [|done].
  rewrite !lookup_insert, lookup_empty.
  repeat case_decide; subst; (split; [done|]); intros Hv;
    first [done | by injection Hv].
Qed.

Lemma darwin_branch_raise_iff platform environ ca e :
  darwin_branch platform environ ca = Raise e ↔
  Str.startswith platform "darwin" = true ∧
  (use_omp environ = Raise e ∨
   (use_omp environ = Ok false ∧ e = UnboundLocalError "cmake_wargs")).
Proof.
  unfold darwin_branch.
  destruct (Str.startswith platform "darwin");
    [|split; [done|by intros [? _]]].
  destruct (use_omp environ) as [[]|e']; cbn [negb].
  - split; [done|]. by intros [_ [|[? _]]].
  - split; [intros [= <-]; eauto|]. by intros [_ [|[_ ->]]].
  - split; [intros [= <-]; eauto|]. by intros [_ [[= ->]|[? _]]].
Qed.

End Cases.

(** ** The assembled arguments, case by case *)

Section Assembled.
Context `{OsPath}.

(** The per-configuration define of line 87. *)
Lemma per_config_define self ext :
  "-DCMAKE_LIBRARY_OUTPUT_DIRECTORY_" +:+ Str.upper (config_name self)
    +:+ "=" +:+ output_dir self ext
  = "-DCMAKE_LIBRARY_OUTPUT_DIRECTORY_"
      +:+ (if debug self then "DEBUG" else "RELEASE")
      +:+ "=" +:+ output_dir self ext.
Proof. unfold config_name. by destruct (debug self). Qed.

(** What the operating-system branch adds. *)
Lemma darwin_branch_cases platform environ ca c :
  darwin_branch platform environ ca = Ok c →
  ∃ dc, c = ca ++ dc ∧
    (dc = [] ∨
     (Str.startswith platform "darwin" = true ∧
      use_omp environ = Ok true ∧
      ∃ v vs, findall_arch (default "" (environ !! "ARCHFLAGS")) = v :: vs ∧
              dc = ["-DCMAKE_OSX_ARCHITECTURES="
                      +:+ Str.join ";" (v :: vs)])).
Proof.
  unfold darwin_branch, archflags_branch.
  destruct (Str.startswith platform "darwin");
    [|intros [= <-]; exists []; rewrite app_nil_r; eauto].
  destruct (use_omp environ) as [[]|]; cbn [negb]; [|done..].
  destruct (findall_arch _) as [|v vs]; intros [= <-].
  - exists []. rewrite app_nil_r. eauto.
  - eexists. split; [done|]. right. eauto 10.
Qed.

(** Both lists, as the three branches leave them. *)
Lemma assemble_args_cases self ext h c b :
  outcome_of (assemble_args self ext) h = Ok (c, b) →
  ∃ tc tb dc,
    c = baseline_args (output_dir self ext) (sys_executable h)
          (get_version self) (config_name self) ++ tc ++ dc ∧
    b = parallel_branch self (os_environ h) tb ∧
    ((compiler_type self ≠ "msvc" ∧ tb = [] ∧
      tc = if negb (Str.truthy (generator_of h)) && ninja_importable h
           then ["-GNinja"] else [])
     ∨ (compiler_type self = "msvc" ∧
        single_config (generator_of h) = true ∧ tc = [] ∧ tb = [])
     ∨ (compiler_type self = "msvc" ∧
        single_config (generator_of h) = false ∧
        tb = ["--config"; config_name self] ∧
        ∃ archpart,
          tc = archpart ++
                 ["-DCMAKE_LIBRARY_OUTPUT_DIRECTORY_"
                    +:+ Str.upper (config_name self) +:+ "="
                    +:+ output_dir self ext] ∧
          ((contains_arch (generator_of h) = true ∧ archpart = []) ∨
           (contains_arch (generator_of h) = false ∧
            ∃ arch, subscript PLAT_TO_CMAKE (plat_name self) = Ok arch ∧
                    archpart = ["-A"; arch])))) ∧
    (dc = [] ∨
     (Str.startswith (sys_platform h) "darwin" = true ∧
      use_omp (os_environ h) = Ok true ∧
      ∃ v vs,
        findall_arch (default "" (os_environ h !! "ARCHFLAGS")) = v :: vs ∧
        dc = ["-DCMAKE_OSX_ARCHITECTURES=" +:+ Str.join ";" (v :: vs)])).
Proof.
  intros (c1 & b1 & Ht & Hd & ->)%assemble_args_inv.
  apply darwin_branch_cases in Hd as (dc & -> & Hdc).
  apply toolchain_branch_cases in Ht
    as [(Hm & -> & ->)|[(Hm & Hs & -> & ->)
                       |(Hm & Hs & -> & archpart & -> & Ha)]].
  - exists (if negb (Str.truthy (generator_of h)) && ninja_importable h
            then ["-GNinja"] else []), [], dc.
    split; [by rewrite (assoc_L (++))|]. split; [done|].
    split; [|done]. by left.
  - exists [], [], dc. split; [done|]. split; [done|].
    split; [|done]. right. by left.
  - exists (archpart ++
              ["-DCMAKE_LIBRARY_OUTPUT_DIRECTORY_"
                 +:+ Str.upper (config_name self) +:+ "="
                 +:+ output_dir self ext]),
      ["--config"; config_name self], dc.
    split; [by rewrite !(assoc_L (++))|]. split; [done|].
    split; [|done]. right. right.
    do 3 (split; [done|]). by exists archpart.
Qed.

Lemma arch_value_facts p arch :
  subscript PLAT_TO_CMAKE p = Ok arch →
  arch ≠ "-GNinja" ∧ arch ≠ "-A" ∧ String.prefix "-D" arch = false.
Proof.
  intros Hk%PLAT_TO_CMAKE_values. revert Hk.
  rewrite !elem_of_cons, elem_of_nil.
  intros [->|[->|[->|[->|[]]]]]; done.
Qed.

End Assembled.

(** ** Which arguments are passed, and when *)

Section Arguments.
Context `{OsPath}.

Lemma osx_define_facts archs :
  "-DCMAKE_OSX_ARCHITECTURES=" +:+ Str.join ";" archs ≠ "-GNinja" ∧
  "-DCMAKE_OSX_ARCHITECTURES=" +:+ Str.join ";" archs ≠ "-A".
Proof. split; intros Heq; symmetry in Heq; by apply not_define in Heq. Qed.

Lemma per_config_facts cfg extdir :
  "-DCMAKE_LIBRARY_OUTPUT_DIRECTORY_" +:+ Str.upper cfg +:+ "=" +:+ extdir
    ≠ "-GNinja" ∧
  "-DCMAKE_LIBRARY_OUTPUT_DIRECTORY_" +:+ Str.upper cfg +:+ "=" +:+ extdir
    ≠ "-A".
Proof. split; intros Heq; symmetry in Heq; by apply not_define in Heq. Qed.

(** X4. The Ninja generator is selected in a configure call exactly when
    the compiler is not MSVC, no generator override is set (the
    variable is unset or empty) and the [ninja] module can be
    imported. *)
Theorem ninja_generator_iff (self : CMakeBuild) (ext : CMakeExtension)
    (h : Host) (c : list string) :
  configure_call self ext h = Some c →
  ("-GNinja" ∈ c ↔
   compiler_type self ≠ "msvc" ∧ generator_of h = "" ∧
   ninja_importable h = true).
Proof.
  intros [b Hc]%configure_call_inv.
  apply assemble_args_cases in Hc as (tc & tb & dc & -> & _ & Ht & Hd).
  assert ("-GNinja" ∉ baseline_args (output_dir self ext) (sys_executable h)
                        (get_version self) (config_name self)) as Hb.
  { by intros ?%baseline_args_defines. }
  assert ("-GNinja" ∉ dc) as Hdc.
  { destruct Hd as [->|(_ & _ & v & vs & _ & ->)]; [apply not_elem_of_nil|].
    rewrite list_elem_of_singleton. intros Heq. symmetry in Heq.
    by apply osx_define_facts in Heq. }
  rewrite !elem_of_app.
  destruct Ht as [(Hm & _ & ->)|[(Hm & _ & -> & _)
                                |(Hm & _ & _ & archpart & -> & Ha)]].
  - destruct (generator_of h) as [|a g]; cbn [Str.truthy negb andb].
    + destruct (ninja_importable h).
      * split; [done|]. intros _. right. left. apply list_elem_of_here.
      * split; [|by intros (_ & _ & ?)].
        intros [?|[Hin|?]]; [done| |done]. by apply elem_of_nil in Hin.
    + split; [|by intros (_ & ? & _)].
      intros [?|[Hin|?]]; [done| |done]. by apply elem_of_nil in Hin.
  - split; [|by intros (? & _)].
    intros [?|[Hin|?]]; [done| |done]. by apply elem_of_nil in Hin.
  - split; [|by intros (? & _)].
    intros [?|[Hin|?]]; [done| |done]. revert Hin.
    rewrite elem_of_app, list_elem_of_singleton.
    intros [Hin|Heq]; [|symmetry in Heq; by apply per_config_facts in Heq].
    destruct Ha as [[_ ->]|(_ & arch & Hk & ->)];
      [by apply elem_of_nil in Hin|].
    apply arch_value_facts in Hk as (Hk & _ & _).
    revert Hin. rewrite !elem_of_cons, elem_of_nil.
    by intros [?|[?|[]]].
Qed.

(** X5. An architecture argument ["-A"] is part of a configure call
    exactly when the platform table is consulted (MSVC, a generator
    that is neither single-config nor names an architecture); the call
    then starts with the four baseline defines followed by ["-A"] and
    the table's answer for the platform of the command. *)
Theorem arch_argument_iff (self : CMakeBuild) (ext : CMakeExtension)
    (h : Host) (c : list string) :
  configure_call self ext h = Some c →
  ("-A" ∈ c ↔ consults_table self h) ∧
  (consults_table self h →
   ∃ arch post,
     PLAT_TO_CMAKE !! plat_name self = Some arch ∧
     c = baseline_args (output_dir self ext) (sys_executable h)
           (get_version self) (config_name self)
         ++ ["-A"; arch] ++ post).
Proof.
  intros [b Hc]%configure_call_inv.
  apply assemble_args_cases in Hc as (tc & tb & dc & -> & _ & Ht & Hd).
  assert ("-A" ∉ baseline_args (output_dir self ext) (sys_executable h)
                   (get_version self) (config_name self)) as Hb.
  { by intros ?%baseline_args_defines. }
  assert ("-A" ∉ dc) as Hdc.
  { destruct Hd as [->|(_ & _ & v & vs & _ & ->)]; [apply not_elem_of_nil|].
    rewrite list_elem_of_singleton. intros Heq. symmetry in Heq.
    by apply osx_define_facts in Heq. }
  unfold consults_table.
  destruct Ht as [(Hm & _ & ->)|[(Hm & Hs & -> & _)
                                |(Hm & Hs & _ & archpart & -> & Ha)]].
  - split; [|by intros (? & _)]. rewrite !elem_of_app.
    split; [|by intros (? & _)].
    intros [?|[Hin|?]]; [done| |done].
    destruct (_ && _); revert Hin;
      rewrite ?elem_of_cons, ?elem_of_nil; intros Hin;
      by repeat destruct Hin as [Hin|Hin].
  - split; [|intros (_ & Hs' & _); congruence]. rewrite !elem_of_app.
    split; [|intros (_ & Hs' & _); congruence].
    intros [?|[Hin|?]]; [done| |done]. by apply elem_of_nil in Hin.
  - destruct Ha as [[Ha ->]|(Ha & arch & Hk & ->)].
    + split; [|intros (_ & _ & Ha'); congruence]. rewrite !elem_of_app.
      split; [|intros (_ & _ & Ha'); congruence].
      intros [?|[[Hin|Heq%list_elem_of_singleton]|?]]; [done| | |done].
      * by apply elem_of_nil in Hin.
      * symmetry in Heq. by apply per_config_facts in Heq.
    + split.
      * split; [done|]. intros _. rewrite !elem_of_app.
        right. left. left. apply list_elem_of_here.
      * intros _. unfold subscript in Hk.
        destruct (PLAT_TO_CMAKE !! plat_name self) as [arch'|] eqn:Hl;
          [|done].
        injection Hk as ->. eexists arch, _. split; [done|].
        by rewrite <- !(assoc_L (++)).
Qed.

End Arguments.

Section Selectors.
Context `{OsPath}.

Lemma parallel_branch_cases self environ tb :
  (environ !! "CMAKE_BUILD_PARALLEL_LEVEL" = None ∧
   ∃ n, parallel self = PyInt n ∧ n ≠ 0%Z ∧
        parallel_branch self environ tb = tb ++ ["-j" +:+ Str.of_Z n])
  ∨ (¬ (environ !! "CMAKE_BUILD_PARALLEL_LEVEL" = None ∧
        ∃ n, parallel self = PyInt n ∧ n ≠ 0%Z) ∧
     parallel_branch self environ tb = tb).
Proof.
  unfold parallel_branch, requested_jobs.
  destruct (environ !! "CMAKE_BUILD_PARALLEL_LEVEL") as [level|];
    [right; split; [by intros [? _]|done]|].
  destruct (parallel self) as [| |n];
    try (right; split; [by intros (_ & ? & ? & _)|done]).
  destruct (Z.eqb_spec n 0) as [->|Hn].
  - right. split; [|done]. by intros (_ & n & [= <-] & ?).
  - left. split; [done|]. by exists n.
Qed.

(** X6. The configuration is selected at build time exactly for MSVC
    with a generator that is not single-config: the build arguments
    then start with ["--config"] and the configuration name, and the
    configure call carries the per-configuration output-directory
    define, keyed ["DEBUG"] or ["RELEASE"]; in every other build there
    is neither a ["--config"] argument nor such a define. *)
Theorem config_selector_iff (self : CMakeBuild) (ext : CMakeExtension)
    (h : Host) :
  let multi := compiler_type self = "msvc" ∧
               single_config (generator_of h) = false in
  let define := "-DCMAKE_LIBRARY_OUTPUT_DIRECTORY_"
                  +:+ (if debug self then "DEBUG" else "RELEASE")
                  +:+ "=" +:+ output_dir self ext in
  (∀ c, configure_call self ext h = Some c → (define ∈ c ↔ multi)) ∧
  (∀ b, build_call self ext h = Some b →
        ("--config" ∈ b ↔ multi) ∧
        (multi →
         take 2 b = ["--config"; if debug self then "Debug" else "Release"])).
Proof.
  intros multi define. subst multi define. split.
  - intros c [b Hc]%configure_call_inv.
    apply assemble_args_cases in Hc as (tc & tb & dc & -> & _ & Ht & Hd).
    rewrite <- per_config_define.
    set (define := "-DCMAKE_LIBRARY_OUTPUT_DIRECTORY_"
                     +:+ Str.upper (config_name self) +:+ "="
                     +:+ output_dir self ext) in *.
    assert (define ∉ baseline_args (output_dir self ext) (sys_executable h)
                       (get_version self) (config_name self)) as Hb.
    { unfold baseline_args, define.
      rewrite !elem_of_cons, elem_of_nil.
      intros [Heq|[Heq|[Heq|[Heq|[]]]]]; by apply not_define in Heq. }
    assert (define ∉ dc) as Hdc.
    { destruct Hd as [->|(_ & _ & v & vs & _ & ->)];
        [apply not_elem_of_nil|].
      rewrite list_elem_of_singleton. unfold define.
      intros Heq. by apply not_define in Heq. }
    rewrite !elem_of_app.
    destruct Ht as [(Hm & _ & ->)|[(Hm & Hs & -> & _)
                                  |(Hm & Hs & _ & archpart & -> & Ha)]].
    + split; [|by intros [? _]].
      intros [?|[Hin|?]]; [done| |done].
      destruct (_ && _); revert Hin;
        rewrite ?elem_of_cons, ?elem_of_nil; intros Hin;
        repeat destruct Hin as [Hin|Hin];
        first [done | by apply not_define in Hin].
    + split; [|intros [_ Hs']; congruence].
      intros [?|[Hin|?]]; [done| |done]. by apply elem_of_nil in Hin.
    + split; [done|]. intros _. right. left.
      apply elem_of_app. right. apply list_elem_of_here.
  - intros b [c Hc]%build_call_inv.
    apply assemble_args_cases in Hc as (tc & tb & dc & _ & -> & Ht & _).
    assert (∀ n, "--config" ≠ "-j" +:+ Str.of_Z n) as Hj.
    { intros n. by apply not_define. }
    assert (config_name self ≠ "--config") as Hcfg.
    { unfold config_name. by destruct (debug self). }
    destruct (parallel_branch_cases self (os_environ h) tb)
      as [(_ & n & _ & _ & ->)|[_ ->]];
      destruct Ht as [(Hm & -> & _)|[(Hm & Hs & _ & ->)
                                    |(Hm & Hs & -> & _)]];
      (split; [|first [by intros [? _] | intros [_ Hs']; congruence
                      | intros _; unfold config_name;
                        by destruct (debug self)]]);
      rewrite ?elem_of_app, ?elem_of_cons, ?elem_of_nil;
      (split; [|first [by intros [? _] | intros [_ Hs']; congruence
                      | by auto]]);
      intros Hin; repeat destruct Hin as [Hin|Hin];
      first [done | by apply Hj in Hin].
Qed.

(** X7. A job-count argument (one starting with ["-j"]) is part of the
    build arguments exactly when [CMAKE_BUILD_PARALLEL_LEVEL] is not
    in the environment and [self.parallel] is an integer other than
    zero; it is then ["-j<n>"] for that integer. A command without the
    attribute, with [None] or with [0] gets none. *)
Theorem job_count_iff (self : CMakeBuild) (ext : CMakeExtension)
    (h : Host) (b : list string) :
  build_call self ext h = Some b →
  ((∃ a, a ∈ b ∧ String.prefix "-j" a = true) ↔
   os_environ h !! "CMAKE_BUILD_PARALLEL_LEVEL" = None ∧
   ∃ n, parallel self = PyInt n ∧ n ≠ 0%Z) ∧
  (∀ a, a ∈ b → String.prefix "-j" a = true →
        ∃ n, parallel self = PyInt n ∧ a = "-j" +:+ Str.of_Z n).
Proof.
  intros [c Hc]%build_call_inv.
  apply assemble_args_cases in Hc as (tc & tb & dc & _ & -> & Ht & _).
  assert (∀ a, a ∈ tb → String.prefix "-j" a = false) as Htb.
  { intros a.
    destruct Ht as [(_ & -> & _)|[(_ & _ & _ & ->)|(_ & _ & -> & _)]];
      rewrite ?elem_of_cons, ?elem_of_nil; intros Hin;
      repeat destruct Hin as [Hin|Hin]; try done; subst a;
      [reflexivity|apply config_name_no_jobs]. }
  destruct (parallel_branch_cases self (os_environ h) tb)
    as [(Hl & n & Hp & Hn & ->)|[Hno ->]].
  - split.
    + split; [intros _; eauto|]. intros _.
      exists ("-j" +:+ Str.of_Z n). split; [|apply prefix_refl_app].
      apply elem_of_app. right. apply list_elem_of_here.
    + intros a [Hin|Hin%list_elem_of_singleton]%elem_of_app Hj.
      * apply Htb in Hin. congruence.
      * eauto.
  - split.
    + split; [|done]. intros (a & Hin & Hj). apply Htb in Hin. congruence.
    + intros a Hin Hj. apply Htb in Hin. congruence.
Qed.

End Selectors.

(** ** What [re.findall] returns on any string (line 96) *)

Lemma strip_prefix_prefix p s r :
  strip_prefix p s = Some r → s = p +:+ r.
Proof.
  revert s; induction p as [|a p IH]; intros [|b s]; cbn [strip_prefix];
    try done.
  - by intros [= <-].
  - by intros [= <-].
  - destruct (Ascii.eqb_spec a b) as [->|]; [|done].
    intros Hr%IH. by rewrite Hr.
Qed.

Lemma span_nospace_spec s v r :
  span_nospace s = (v, r) → s = v +:+ r ∧ Str.nospace v = true.
Proof.
  revert v r; induction s as [|c s IH]; intros v r; cbn [span_nospace].
  - by intros [= <- <-].
  - destruct (Str.isspace c) eqn:Hc; [by intros [= <- <-]|].
    destruct (span_nospace s) as [v' r'].
    intros [= <- <-]. destruct (IH v' r' eq_refl) as [-> Hv].
    split; [done|]. cbn [Str.nospace]. by rewrite Hc, Hv.
Qed.

(** A match is the literal, a value and the rest. *)
Lemma match_arch_spec s v r :
  match_arch s = Some (v, r) →
  s = "-arch " +:+ v +:+ r ∧ v ≠ "" ∧ Str.nospace v = true.
Proof.
  unfold match_arch.
  destruct (strip_prefix "-arch " s) as [r0|] eqn:Hp; [|done].
  apply strip_prefix_prefix in Hp as ->.
  destruct (span_nospace r0) as [v' r'] eqn:Hs.
  apply span_nospace_spec in Hs as [-> Hv].
  destruct v' as [|a v']; [done|]. by intros [= <- <-].
Qed.

(** Induction on the length of a string. *)
Lemma string_length_ind (P : string → Prop) :
  (∀ s, (∀ t, (String.length t < String.length s)%nat → P t) → P s) →
  ∀ s, P s.
Proof.
  intros Hstep s. remember (String.length s) as n eqn:Hn.
  revert s Hn. induction (lt_wf n) as [n _ IH]. intros s ->.
  apply Hstep. intros t Ht. by eapply IH.
Qed.

(** X8. Whatever the flags string, every architecture that
    [re.findall(r"-arch (\S+)", ...)] extracts is a non-empty run of
    non-space characters, and there are no more of them than the
    string has characters. *)
Theorem findall_arch_values (s : string) :
  Forall (λ v, v ≠ "" ∧ Str.nospace v = true) (findall_arch s) ∧
  (length (findall_arch s) ≤ String.length s)%nat.
Proof.
  induction s as [s IH] using string_length_ind.
  destruct s as [|c s]; [by simp findall_arch|].
  rewrite findall_arch_cons.
  destruct (match_arch (String c s)) as [[v r]|] eqn:Hm.
  - pose proof (match_arch_length _ _ _ Hm) as Hl.
    destruct (IH r Hl) as [Hv Hn].
    apply match_arch_spec in Hm as (_ & Hne & Hvv).
    split; [by constructor|]. cbn [length]. lia.
  - destruct (IH s) as [Hv Hn]; [simpl; lia|].
    split; [done|]. simpl. lia.
Qed.

(** Without the literal ["-arch "] in the string there is no match. *)
Lemma findall_arch_none s :
  Str.contains s "-arch " = false → findall_arch s = [].
Proof.
  induction s as [|c s IH]; [by simp findall_arch|].
  rewrite contains_cons. intros [Hp Hs]%orb_false_iff.
  rewrite findall_arch_cons.
  destruct (match_arch (String c s)) as [[v r]|] eqn:Hm; [|by apply IH].
  apply match_arch_spec in Hm as (Heq & _).
  rewrite Heq in Hp. by rewrite prefix_refl_app in Hp.
Qed.

(** ** The Apple branch in the whole method *)

Section Apple.
Context `{OsPath}.

(** X9. A define of the target architectures reaches a configure call
    only on an Apple host with [USE_OMP] set to ["True"] and with an
    [ARCHFLAGS] that contains ["-arch "]; it is then the last argument
    and lists what [re.findall] extracts from [ARCHFLAGS]. *)
Theorem osx_architectures_only_when (self : CMakeBuild)
    (ext : CMakeExtension) (h : Host) (c : list string) (a : string) :
  configure_call self ext h = Some c →
  a ∈ c →
  String.prefix "-DCMAKE_OSX_ARCHITECTURES=" a = true →
  Str.startswith (sys_platform h) "darwin" = true ∧
  os_environ h !! "USE_OMP" = Some "True" ∧
  ∃ flags,
    os_environ h !! "ARCHFLAGS" = Some flags ∧
    Str.contains flags "-arch " = true ∧
    a = "-DCMAKE_OSX_ARCHITECTURES=" +:+ Str.join ";" (findall_arch flags) ∧
    last c = Some a.
Proof.
  intros [b Hc]%configure_call_inv Ha Hpre.
  apply assemble_args_inv in Hc as (c1 & b1 & Ht & Hd & _).
  assert (a ∉ c1) as Hc1.
  { intros Hin. apply toolchain_branch_elements in Ht as [Ht _].
    destruct (Ht _ Hin) as [Hb|Hb]; revert Hb.
    - unfold baseline_args. rewrite !elem_of_cons, elem_of_nil.
      intros [->|[->|[->|[->|[]]]]]; discriminate Hpre.
    - rewrite !elem_of_cons, elem_of_nil.
      intros [->|[->|[->|[->|[->|[->|[->|[]]]]]]]]; discriminate Hpre. }
  destruct (Str.startswith (sys_platform h) "darwin") eqn:Hp.
  2:{ rewrite darwin_branch_off in Hd by done. by injection Hd as <-. }
  apply (darwin_branch_on _ _ _ _ Hp) in Hd as [Hu ->].
  split; [done|]. split; [by apply use_omp_true|].
  unfold archflags_branch in *.
  destruct (os_environ h !! "ARCHFLAGS") as [flags|] eqn:Hf;
    cbn [from_option id] in *.
  2:{ by rewrite findall_arch_equation_1 in Ha. }
  exists flags. split; [done|].
  destruct (findall_arch flags) as [|v vs] eqn:Hfind; [done|].
  apply elem_of_app in Ha as [Ha|Ha%list_elem_of_singleton]; [done|].
  split; [|split; [done|by rewrite last_snoc, Ha]].
  destruct (Str.contains flags "-arch ") eqn:Hcont; [done|].
  by rewrite findall_arch_none in Hfind.
Qed.

(** X10. On an Apple host a configure call is made only with [USE_OMP]
    set to ["True"]: with the variable unset, ["False"] or anything
    else the method ends before it has made the build directory or
    launched a child. *)
Theorem apple_build_needs_openmp (self : CMakeBuild)
    (ext : CMakeExtension) (h : Host) :
  Str.startswith (sys_platform h) "darwin" = true →
  (is_Some (configure_call self ext h) →
   os_environ h !! "USE_OMP" = Some "True") ∧
  (os_environ h !! "USE_OMP" ≠ Some "True" →
   ∃ e, build_extension self ext h = ([], Raise e)).
Proof.
  intros Hp.
  assert (∀ c b, outcome_of (assemble_args self ext) h = Ok (c, b) →
                 os_environ h !! "USE_OMP" = Some "True") as Hok.
  { intros c b (c1 & b1 & _ & Hd & _)%assemble_args_inv.
    apply (darwin_branch_on _ _ _ _ Hp) in Hd as [Hu _].
    by apply use_omp_true. }
  split.
  - intros [c [b Hc]%configure_call_inv]. by eapply Hok.
  - intros Hne.
    destruct (outcome_of (assemble_args self ext) h) as [[c b]|e] eqn:He.
    + by specialize (Hok c b eq_refl).
    + exists e. by apply build_extension_raise.
Qed.

Lemma use_omp_false environ :
  use_omp environ = Ok false ↔
  environ !! "USE_OMP" = None ∨ environ !! "USE_OMP" = Some "False".
Proof.
  unfold use_omp, subscript, USE_OMP_TABLE.
  destruct (environ !! "USE_OMP") as [v|]; cbn [from_option id];
    [|split; [by left|done]].
  rewrite !lookup_insert, lookup_empty.
  repeat case_decide; subst; (split; [intros Hv|intros [Hv|Hv]]);
    first [done | by right | by injection Hv].
Qed.

(** X11. [build_extension] ends with an exception before it has done
    anything (an empty trace) in three cases and no other: the
    platform table is consulted for an identifier it does not hold
    ([KeyError] for the identifier); or, that apart, on an Apple host,
    [USE_OMP] holds a value that is neither ["True"] nor ["False"]
    ([KeyError] for the value), or it is unset or ["False"]
    ([UnboundLocalError] for [cmake_wargs]). *)
Theorem early_failure_iff (self : CMakeBuild) (ext : CMakeExtension)
    (h : Host) (e : exn) :
  let unknown_platform :=
    consults_table self h ∧ PLAT_TO_CMAKE !! plat_name self = None in
  (build_extension self ext h = ([], Raise e) ↔
   (unknown_platform ∧ e = KeyError (plat_name self)) ∨
   (¬ unknown_platform ∧
    Str.startswith (sys_platform h) "darwin" = true ∧
    ((∃ v, os_environ h !! "USE_OMP" = Some v ∧ v ≠ "True" ∧
           v ≠ "False" ∧ e = KeyError v) ∨
     ((os_environ h !! "USE_OMP" = None ∨
       os_environ h !! "USE_OMP" = Some "False") ∧
      e = UnboundLocalError "cmake_wargs")))) ∧
  (trace_of (build_extension self ext) h = [] →
   ∃ e', build_extension self ext h = ([], Raise e')).
Proof.
  intros unknown_platform. subst unknown_platform. unfold consults_table.
  assert (∀ c b, outcome_of (assemble_args self ext) h = Ok (c, b) →
                 trace_of (build_extension self ext) h ≠ []) as Hne.
  { intros c b He. unfold trace_of.
    rewrite (build_extension_run _ _ _ _ _ He). cbv zeta.
    unfold full_trace.
    destruct (os_path_exists h (build_temp self)); cbn [app].
    - destruct (run_child h _ _ false) as [?|s]; [done|].
      destruct (s =? 0)%Z; [|done].
      by destruct (run_child h _ _ false).
    - destruct (os_makedirs h (build_temp self)); [done|].
      destruct (run_child h _ _ false) as [?|s]; [done|].
      destruct (s =? 0)%Z; [|done].
      by destruct (run_child h _ _ false). }
  assert (build_extension self ext h = ([], Raise e) ↔
          outcome_of (assemble_args self ext) h = Raise e) as ->.
  { split; [|apply build_extension_raise].
    intros Hr.
    destruct (outcome_of (assemble_args self ext) h) as [[c b]|e'] eqn:He.
    - specialize (Hne c b eq_refl). unfold trace_of in Hne.
      by rewrite Hr in Hne.
    - rewrite (build_extension_raise _ _ _ _ He) in Hr. congruence. }
  split.
  - unfold outcome_of. rewrite assemble_args_unfold. cbn [snd].
    destruct (toolchain_branch _ _ _ _ _ _ _) as [[c1 b1]|e1] eqn:Ht.
    + assert (¬ ((compiler_type self = "msvc" ∧
                  single_config (generator_of h) = false ∧
                  contains_arch (generator_of h) = false) ∧
                 PLAT_TO_CMAKE !! plat_name self = None)) as Hnot.
      { intros [(Hm & Hs & Ha) Hl].
        assert (toolchain_branch self (generator_of h) (config_name self)
                  (output_dir self ext) (ninja_importable h)
                  (baseline_args (output_dir self ext) (sys_executable h)
                     (get_version self) (config_name self)) []
                = Raise (KeyError (plat_name self))) as Hr.
        { by apply toolchain_branch_raise. }
        congruence. }
      destruct (darwin_branch _ _ _) as [c|e2] eqn:Hd.
      * split; [done|]. intros [[Hu _]|(_ & Hp & Hcase)]; [done|].
        assert (darwin_branch (sys_platform h) (os_environ h) c1 = Raise e)
          as Hr; [|congruence].
        apply darwin_branch_raise_iff. split; [done|].
        destruct Hcase as [Hv|[Hf ->]].
        -- left. by apply use_omp_raise.
        -- right. split; [|done]. by apply use_omp_false.
      * apply darwin_branch_raise_iff in Hd as [Hp Hcase]. split.
        -- intros [= <-]. right. split; [done|]. split; [done|].
           destruct Hcase as [Hv|[Hf ->]].
           ++ left. by apply use_omp_raise.
           ++ right. split; [|done]. by apply use_omp_false.
        -- intros [[Hu _]|(_ & _ & Hcase')]; [done|]. f_equal.
           destruct Hcase as [Hv|[Hf ->]];
             destruct Hcase' as [Hv'|[Hf' ->]]; try done.
           ++ apply use_omp_raise in Hv'. congruence.
           ++ apply use_omp_false in Hf'. congruence.
           ++ apply use_omp_raise in Hv'. congruence.
    + pose proof Ht as Ht'.
      apply toolchain_branch_raise in Ht' as (Hm & Hs & Ha & Hl & ->).
      split.
      * intros [= <-]. by left.
      * intros [[_ ->]|[Hnot _]]; [done|]. by destruct Hnot.
  - intros Htr.
    destruct (outcome_of (assemble_args self ext) h) as [[c b]|e'] eqn:He.
    + by specialize (Hne c b eq_refl).
    + exists e'. by apply build_extension_raise.
Qed.

End Apple.

(** ** What the method reads *)

Section Reads.
Context `{OsPath}.

(** The method is determined by the assembled arguments, the build
    directory and the answers of the host about it and about the
    children. *)
Lemma build_extension_congr self self' ext h h' :
  outcome_of (assemble_args self' ext) h'
    = outcome_of (assemble_args self ext) h →
  build_temp self' = build_temp self →
  os_path_exists h' = os_path_exists h →
  os_makedirs h' = os_makedirs h →
  run_child h' = run_child h →
  build_extension self' ext h' = build_extension self ext h.
Proof.
  intros Ho Hb Hx Hm Hr.
  destruct (outcome_of (assemble_args self ext) h) as [[c b]|e] eqn:He.
  - rewrite (build_extension_run _ _ _ _ _ He),
      (build_extension_run _ _ _ _ _ Ho).
    unfold full_trace, configure_event, build_event.
    by rewrite Hb, Hx, Hm, Hr.
  - by rewrite (build_extension_raise _ _ _ _ He),
      (build_extension_raise _ _ _ _ Ho).
Qed.

(** X12. Of the environment, the argument assembly of
    [build_extension] (lines 33-107) reads the values of
    [CMAKE_GENERATOR], [USE_OMP] and [ARCHFLAGS] and whether
    [CMAKE_BUILD_PARALLEL_LEVEL] is set, and nothing else: on two hosts
    with the same platform, interpreter path and [ninja] availability
    whose environments agree on these, it yields the same two argument
    lists or raises the same exception. So a build that ends on one
    host before anything is done ends the same way on the other, and
    where [cmake] is called on both hosts, it is called with the same
    arguments. Nothing is assumed, and nothing is said, of what the
    children do: lines 112-117 pass no [env=], so that they inherit the
    whole environment, and the file system and the children of the two
    hosts may answer differently. *)
Theorem environment_read (self : CMakeBuild) (ext : CMakeExtension)
    (h1 h2 : Host) :
  sys_platform h2 = sys_platform h1 →
  sys_executable h2 = sys_executable h1 →
  ninja_importable h2 = ninja_importable h1 →
  same_build_vars (os_environ h1) (os_environ h2) →
  outcome_of (assemble_args self ext) h2
    = outcome_of (assemble_args self ext) h1 ∧
  (∀ e, build_extension self ext h1 = ([], Raise e) →
        build_extension self ext h2 = ([], Raise e)) ∧
  (∀ c1 c2, configure_call self ext h1 = Some c1 →
            configure_call self ext h2 = Some c2 → c2 = c1) ∧
  (∀ b1 b2, build_call self ext h1 = Some b1 →
            build_call self ext h2 = Some b2 → b2 = b1).
Proof.
  intros Hp Hx Hn (Hg & Hu & Hf & Hl).
  assert (outcome_of (assemble_args self ext) h2
          = outcome_of (assemble_args self ext) h1) as Ho.
  { unfold outcome_of. rewrite !assemble_args_unfold. cbn [snd].
    unfold generator_of. rewrite Hp, Hx, Hn, <- Hg.
    destruct (toolchain_branch _ _ _ _ _ _ _) as [[c1 b1]|e]; [|done].
    assert (darwin_branch (sys_platform h1) (os_environ h2) c1
            = darwin_branch (sys_platform h1) (os_environ h1) c1) as ->.
    { unfold darwin_branch, use_omp, archflags_branch.
      by rewrite Hu, Hf. }
    assert (parallel_branch self (os_environ h2) b1
            = parallel_branch self (os_environ h1) b1) as ->; [|done].
    unfold parallel_branch.
    destruct (os_environ h1 !! "CMAKE_BUILD_PARALLEL_LEVEL") as [l|],
      (os_environ h2 !! "CMAKE_BUILD_PARALLEL_LEVEL") as [l'|]; try done.
    - destruct Hl as [Hl _]. by destruct Hl.
    - destruct Hl as [_ Hl]. by destruct Hl. }
  split; [done|]. split; [|split].
  - intros e He. apply build_extension_raise. rewrite Ho.
    destruct (outcome_of (assemble_args self ext) h1) as [[c b]|e1] eqn:H1.
    + exfalso. apply (f_equal fst) in He. revert He.
      rewrite (build_extension_run _ _ _ _ _ H1). unfold full_trace.
      cbn zeta.
      destruct (os_path_exists h1 (build_temp self));
        [|destruct (os_makedirs h1 (build_temp self)); [done|]];
        (destruct (run_child h1 _ _ false) as [?|s]; [done|]);
        (destruct (s =? 0)%Z; [|done]);
        (destruct (run_child h1 _ _ false) as [?|s']; [done|]);
        by destruct (s' =? 0)%Z.
    + rewrite (build_extension_raise _ _ _ _ H1) in He. by injection He as ->.
  - intros c1 c2 [b1 H1]%configure_call_inv [b2 H2]%configure_call_inv.
    rewrite Ho, H1 in H2. by injection H2 as -> _.
  - intros b1 b2 [c1 H1]%build_call_inv [c2 H2]%build_call_inv.
    rewrite Ho, H1 in H2. by injection H2 as _ ->.
Qed.

(** X13. The platform identifier of the command is read only when the
    platform table is consulted: in every other build (another
    compiler than MSVC, a single-config generator, a generator that
    names an architecture) the method does the same and ends the same
    for every platform identifier. *)
Theorem plat_name_read (self : CMakeBuild) (ext : CMakeExtension)
    (h : Host) (plat : string) :
  ¬ consults_table self h →
  build_extension (with_plat_name plat self) ext h
  = build_extension self ext h.
Proof.
  intros Hno. apply build_extension_congr; try done.
  unfold outcome_of. rewrite !assemble_args_unfold. cbn [snd].
  change (output_dir (with_plat_name plat self)) with (output_dir self).
  change (config_name (with_plat_name plat self)) with (config_name self).
  change (get_version (with_plat_name plat self)) with (get_version self).
  assert (∀ g cfg extdir ninja ca ba,
            g = generator_of h →
            toolchain_branch (with_plat_name plat self) g cfg extdir ninja
              ca ba
            = toolchain_branch self g cfg extdir ninja ca ba) as Ht.
  { intros g cfg extdir ninja ca ba ->. unfold toolchain_branch.
    cbn [compiler_type plat_name with_plat_name].
    destruct (String.eqb_spec (compiler_type self) "msvc") as [Hm|Hm];
      cbn [negb]; [|done].
    destruct (single_config (generator_of h)) eqn:Hs; cbn [negb andb];
      [done|].
    destruct (contains_arch (generator_of h)) eqn:Ha; cbn [negb];
      [done|].
    by destruct Hno. }
  rewrite Ht by done.
  destruct (toolchain_branch _ _ _ _ _ _ _) as [[c1 b1]|e]; [|done].
  by destruct (darwin_branch _ _ _).
Qed.

End Reads.

(** ** Bounds, the output directory, the source directory *)

Section Bounds.
Context `{OsPath}.

(** X14. Every configure call starts with the four baseline defines
    (output directory, interpreter, version, build type), in this
    order, whatever the branches add after them, and has at most eight
    arguments; a build call has at most three. *)
Theorem argument_list_bounds (self : CMakeBuild) (ext : CMakeExtension)
    (h : Host) :
  (∀ c, configure_call self ext h = Some c →
        take 4 c
        = [ "-DCMAKE_LIBRARY_OUTPUT_DIRECTORY=" +:+ output_dir self ext;
            "-DPYTHON_EXECUTABLE=" +:+ sys_executable h;
            "-DPYQUBO_VERSION_INFO=" +:+ get_version self;
            "-DCMAKE_BUILD_TYPE="
              +:+ (if debug self then "Debug" else "Release") ] ∧
        (length c ≤ 8)%nat) ∧
  (∀ b, build_call self ext h = Some b → (length b ≤ 3)%nat).
Proof.
  split.
  - intros c [b Hc]%configure_call_inv.
    apply assemble_args_cases in Hc as (tc & tb & dc & -> & _ & Ht & Hd).
    split; [unfold baseline_args, config_name; by destruct (debug self)|].
    assert (length tc ≤ 3)%nat as Htc.
    { destruct Ht as [(_ & _ & ->)|[(_ & _ & -> & _)
                                   |(_ & _ & _ & archpart & -> & Ha)]].
      - destruct (_ && _); simpl; lia.
      - simpl; lia.
      - destruct Ha as [[_ ->]|(_ & arch & _ & ->)]; simpl; lia. }
    assert (length dc ≤ 1)%nat as Hdc.
    { destruct Hd as [->|(_ & _ & v & vs & _ & ->)]; simpl; lia. }
    rewrite !length_app. unfold baseline_args. simpl. lia.
  - intros b [c Hc]%build_call_inv.
    apply assemble_args_cases in Hc as (tc & tb & dc & _ & -> & Ht & _).
    assert (length tb ≤ 2)%nat as Htb.
    { destruct Ht as [(_ & -> & _)|[(_ & _ & _ & ->)|(_ & _ & -> & _)]];
        simpl; lia. }
    destruct (parallel_branch_cases self (os_environ h) tb)
      as [(_ & n & _ & _ & ->)|[_ ->]]; [|lia].
    rewrite length_app. simpl. lia.
Qed.

(** X15. Adding the trailing separator is idempotent, and it changes a
    path by nothing or by one separator at its end. *)
Theorem with_trailing_sep_idempotent (p : string) :
  with_trailing_sep (with_trailing_sep p) = with_trailing_sep p ∧
  (with_trailing_sep p = p ∨ with_trailing_sep p = p +:+ sep).
Proof.
  split.
  - unfold with_trailing_sep at 1.
    by rewrite with_trailing_sep_ends.
  - unfold with_trailing_sep. destruct (Str.endswith p sep); auto.
Qed.

End Bounds.

(** X16. On a POSIX host whose working directory is an absolute path,
    the output directory starts and ends with a slash: it is the
    absolute directory of the extension file, with a slash added
    unless it is a root. *)
Theorem posix_output_dir (cwd : string) (self : CMakeBuild)
    (ext : CMakeExtension) :
  posixpath.isabs cwd = true →
  let dir := posixpath.abspath cwd
               (posixpath.dirname (get_ext_fullpath self (ext_name ext))) in
  Str.startswith (output_dir (H := posix cwd) self ext) "/" = true ∧
  Str.endswith (output_dir (H := posix cwd) self ext) "/" = true ∧
  (output_dir (H := posix cwd) self ext = dir ∨
   output_dir (H := posix cwd) self ext = dir +:+ "/").
Proof.
  intros Hc dir.
  pose proof (abspath_isabs cwd
                (posixpath.dirname (get_ext_fullpath self (ext_name ext)))
                Hc) as Habs.
  fold dir in Habs. apply isabs_inv in Habs as [r Hr].
  change (output_dir (H := posix cwd) self ext)
    with (with_trailing_sep (H := posix cwd) dir).
  split; [|split].
  - unfold with_trailing_sep. rewrite Hr.
    destruct (negb _); unfold Str.startswith;
      rewrite ?str_app_cons, prefix_cons, prefix_nil;
      by destruct (ascii_dec _ _).
  - apply (with_trailing_sep_ends (H := posix cwd)).
  - unfold with_trailing_sep. destruct (negb _); auto.
Qed.

(** X17. The extension of the script, [CMakeExtension('pyqubo')], is
    built from the working directory: on a POSIX host whose working
    directory [cwd] is a normalized path, the first child of its build
    is [cmake cwd] followed by the configure arguments. *)
Theorem default_extension_source (cwd name : string) (self : CMakeBuild)
    (h : Host) (c b : list string) :
  posixpath.normpath cwd = cwd →
  outcome_of (assemble_args (H := posix cwd) self
                (CMakeExtension_init (H := posix cwd) name None)) h
    = Ok (c, b) →
  build_temp_ready self h →
  head (spawned (trace_of (build_extension (H := posix cwd) self
                             (CMakeExtension_init (H := posix cwd) name
                                None)) h))
  = Some (["cmake"; cwd] ++ c).
Proof.
  intros Hn He Hd. unfold trace_of.
  rewrite (build_extension_run _ _ _ _ _ He). cbv zeta.
  apply build_temp_ready_dec in Hd as Hd'. rewrite Hd'.
  unfold full_trace, configure_event.
  assert (ext_sourcedir (CMakeExtension_init (H := posix cwd) name None)
          = cwd) as ->.
  { cbn. by apply abspath_empty. }
  destruct (os_path_exists h (build_temp self));
    destruct (run_child h (["cmake"; cwd] ++ c) _ false) as [e|s];
    try destruct (s =? 0)%Z;
    try destruct (run_child h (["cmake"; "--build"; "."] ++ b) _ false);
    reflexivity.
Qed.

(** ** The further properties on sample runs *)

Lemma configure_failure_stops_build_witness :
  build_call (H := posix "/proj")
    (command_with "unix" "linux-x86_64" false PyNone) pyqubo_ext
    configure_fails = None ∧
  spawned (trace_of (build_extension (H := posix "/proj")
                       (command_with "unix" "linux-x86_64" false PyNone)
                       pyqubo_ext) configure_fails)
  = [["cmake"; "/proj";
      "-DCMAKE_LIBRARY_OUTPUT_DIRECTORY=/proj/build/lib/";
      "-DPYTHON_EXECUTABLE=/usr/bin/python3";
      "-DPYQUBO_VERSION_INFO=1.4.0";
      "-DCMAKE_BUILD_TYPE=Release"]].
Proof.
  destruct (configure_failure_stops_build (H := posix "/proj")
              (command_with "unix" "linux-x86_64" false PyNone) pyqubo_ext
              configure_fails
              ["-DCMAKE_LIBRARY_OUTPUT_DIRECTORY=/proj/build/lib/";
               "-DPYTHON_EXECUTABLE=/usr/bin/python3";
               "-DPYQUBO_VERSION_INFO=1.4.0";
               "-DCMAKE_BUILD_TYPE=Release"] [] 2%Z)
    as (_ & Hs & Hb).
  - by vm_compute.
  - by left.
  - by vm_compute.
  - lia.
  - split; [exact Hb|exact Hs].
Defined.

Lemma ninja_generator_iff_witness :
  "-GNinja"
  ∈ default [] (configure_call (H := posix "/proj")
                  (command_with "unix" "linux-x86_64" false PyNone)
                  pyqubo_ext (host_with "linux" ∅)).
Proof.
  apply (ninja_generator_iff (H := posix "/proj")
           (command_with "unix" "linux-x86_64" false PyNone) pyqubo_ext
           (host_with "linux" ∅)).
  - by vm_compute.
  - split; [done|]. split; reflexivity.
Defined.

Lemma arch_argument_iff_witness :
  "-A"
  ∈ default [] (configure_call (H := posix "/proj")
                  (command_with "msvc" "win-amd64" false PyNone)
                  pyqubo_ext (host_with "win32" ∅)).
Proof.
  apply (arch_argument_iff (H := posix "/proj")
           (command_with "msvc" "win-amd64" false PyNone) pyqubo_ext
           (host_with "win32" ∅)).
  - by vm_compute.
  - split; [reflexivity|]. split; by vm_compute.
Defined.

Lemma config_selector_iff_witness :
  take 2 (default [] (build_call (H := posix "/proj")
                        (command_with "msvc" "win-amd64" false (PyInt 2))
                        pyqubo_ext (host_with "win32" ∅)))
  = ["--config"; "Release"].
Proof.
  destruct (config_selector_iff (H := posix "/proj")
              (command_with "msvc" "win-amd64" false (PyInt 2)) pyqubo_ext
              (host_with "win32" ∅)) as [_ Hb].
  apply (Hb _); [by vm_compute|]. split; [reflexivity|by vm_compute].
Defined.

Lemma job_count_iff_witness :
  ∃ a, a ∈ default [] (build_call (H := posix "/proj")
                         (command_with "unix" "linux-x86_64" false
                            (PyInt 4))
                         pyqubo_ext (host_with "linux" ∅)) ∧
       String.prefix "-j" a = true.
Proof.
  apply (job_count_iff (H := posix "/proj")
           (command_with "unix" "linux-x86_64" false (PyInt 4)) pyqubo_ext
           (host_with "linux" ∅)).
  - by vm_compute.
  - split; [reflexivity|]. by exists 4%Z.
Defined.

Lemma osx_architectures_only_when_witness :
  last (default [] (configure_call (H := posix "/proj")
                      (command_with "unix" "macosx-11.0-universal2" false
                         PyNone)
                      pyqubo_ext
                      (host_with "darwin"
                         (<["USE_OMP" := "True"]>
                            {["ARCHFLAGS" := "-arch arm64"]}))))
  = Some "-DCMAKE_OSX_ARCHITECTURES=arm64".
Proof.
  destruct (osx_architectures_only_when (H := posix "/proj")
              (command_with "unix" "macosx-11.0-universal2" false PyNone)
              pyqubo_ext
              (host_with "darwin"
                 (<["USE_OMP" := "True"]> {["ARCHFLAGS" := "-arch arm64"]}))
              (default [] (configure_call (H := posix "/proj")
                 (command_with "unix" "macosx-11.0-universal2" false PyNone)
                 pyqubo_ext
                 (host_with "darwin"
                    (<["USE_OMP" := "True"]>
                       {["ARCHFLAGS" := "-arch arm64"]}))))
              "-DCMAKE_OSX_ARCHITECTURES=arm64")
    as (_ & _ & flags & _ & _ & _ & Hlast).
  - by vm_compute.
  - apply (bool_decide_unpack _). by vm_compute.
  - reflexivity.
  - exact Hlast.
Defined.

Lemma apple_build_needs_openmp_witness :
  ∃ e, build_extension (H := posix "/proj")
         (command_with "unix" "macosx-11.0-arm64" false PyNone) pyqubo_ext
         (host_with "darwin" {["USE_OMP" := "False"]})
       = ([], Raise e).
Proof.
  apply (apple_build_needs_openmp (H := posix "/proj")
           (command_with "unix" "macosx-11.0-arm64" false PyNone)
           pyqubo_ext (host_with "darwin" {["USE_OMP" := "False"]})).
  - reflexivity.
  - by vm_compute.
Defined.

Lemma environment_read_witness :
  outcome_of (assemble_args (H := posix "/proj")
                (command_with "unix" "linux-x86_64" false PyNone)
                pyqubo_ext)
    {| sys_platform := "linux";
       sys_executable := "/usr/bin/python3";
       os_environ := {["HOME" := "/root"]};
       ninja_importable := false;
       os_path_exists := λ _, true;
       os_makedirs := λ _, None;
       run_child := λ _ _ _, Exited 1;
       super_run := None |}
  = outcome_of (assemble_args (H := posix "/proj")
                  (command_with "unix" "linux-x86_64" false PyNone)
                  pyqubo_ext)
      configure_fails.
Proof.
  apply (environment_read (H := posix "/proj")); try reflexivity.
  repeat split; try reflexivity; by intros [? ?].
Defined.

Lemma plat_name_read_witness :
  build_extension (H := posix "/proj")
    (with_plat_name "win-ia64"
       (command_with "unix" "linux-x86_64" false PyNone))
    pyqubo_ext (host_with "linux" ∅)
  = build_extension (H := posix "/proj")
      (command_with "unix" "linux-x86_64" false PyNone) pyqubo_ext
      (host_with "linux" ∅).
Proof.
  apply (plat_name_read (H := posix "/proj")). by intros [? _].
Defined.

Lemma argument_list_bounds_witness :
  (length (default [] (configure_call (H := posix "/proj")
                         (command_with "msvc" "win-amd64" true (PyInt 2))
                         pyqubo_ext (host_with "win32" ∅))) ≤ 8)%nat.
Proof.
  destruct (argument_list_bounds (H := posix "/proj")
              (command_with "msvc" "win-amd64" true (PyInt 2)) pyqubo_ext
              (host_with "win32" ∅)) as [Hc _].
  apply (Hc _). by vm_compute.
Defined.

Lemma posix_output_dir_witness :
  Str.startswith
    (output_dir (H := posix "/proj")
       (command_with "unix" "linux-x86_64" false PyNone) pyqubo_ext) "/"
  = true.
Proof.
  apply (posix_output_dir "/proj"
           (command_with "unix" "linux-x86_64" false PyNone) pyqubo_ext).
  reflexivity.
Defined.

Lemma default_extension_source_witness :
  head (spawned (trace_of (build_extension (H := posix "/proj")
                             (command_with "unix" "linux-x86_64" false
                                PyNone)
                             (CMakeExtension_init (H := posix "/proj")
                                "pyqubo" None))
                   (host_with "linux" {["CMAKE_GENERATOR" := "Ninja"]})))
  = Some (["cmake"; "/proj"]
            ++ ["-DCMAKE_LIBRARY_OUTPUT_DIRECTORY=/proj/build/lib/";
                "-DPYTHON_EXECUTABLE=/usr/bin/python3";
                "-DPYQUBO_VERSION_INFO=1.4.0";
                "-DCMAKE_BUILD_TYPE=Release"]).
Proof.
  apply (default_extension_source "/proj" "pyqubo"
           (command_with "unix" "linux-x86_64" false PyNone)
           (host_with "linux" {["CMAKE_GENERATOR" := "Ninja"]}) _ []).
  - reflexivity.
  - by vm_compute.
  - by right.
Defined.

(** ** Builds that always get to [cmake] *)

Section Liveness.
Context `{OsPath}.

(** X20. With another compiler than MSVC and off the Apple hosts the
    argument assembly cannot fail: when the build directory is ready
    the configure call is made, with the four baseline defines and,
    if no generator override is set and [ninja] can be imported,
    ["-GNinja"], and nothing else; when it exits with status 0 the
    build call is made, with the job count (if any) as its only
    argument. *)
Theorem plain_build_calls (self : CMakeBuild) (ext : CMakeExtension)
    (h : Host) :
  compiler_type self ≠ "msvc" →
  Str.startswith (sys_platform h) "darwin" = false →
  build_temp_ready self h →
  let c := baseline_args (output_dir self ext) (sys_executable h)
             (get_version self) (config_name self)
           ++ (if negb (Str.truthy (generator_of h)) && ninja_importable h
               then ["-GNinja"] else []) in
  configure_call self ext h = Some c ∧
  (run_child h (["cmake"; ext_sourcedir ext] ++ c) (build_temp self) false
     = Exited 0 →
   build_call self ext h = Some (parallel_branch self (os_environ h) [])).
Proof.
  intros Hm Hp Hd c.
  assert (outcome_of (assemble_args self ext) h
          = Ok (c, parallel_branch self (os_environ h) [])) as He.
  { eapply assemble_args_intro; [|by apply darwin_branch_off].
    unfold toolchain_branch. rewrite (not_msvc_eqb _ Hm). subst c.
    destruct (negb (Str.truthy (generator_of h))); cbn [andb];
      [destruct (ninja_importable h)|]; by rewrite ?app_nil_r. }
  split.
  - by eapply configure_call_intro.
  - intros Hc. by eapply build_call_intro.
Qed.

(** X21. With MSVC and no generator override (the variable unset or
    empty) the platform table is always consulted: for a platform it
    holds, off the Apple hosts and with the build directory ready, the
    configure call is made with the baseline defines, ["-A"] and the
    architecture of the platform, and the per-configuration define. *)
Theorem msvc_default_generator (self : CMakeBuild) (ext : CMakeExtension)
    (h : Host) (arch : string) :
  compiler_type self = "msvc" →
  generator_of h = "" →
  PLAT_TO_CMAKE !! plat_name self = Some arch →
  Str.startswith (sys_platform h) "darwin" = false →
  build_temp_ready self h →
  consults_table self h ∧
  configure_call self ext h
  = Some (baseline_args (output_dir self ext) (sys_executable h)
            (get_version self) (config_name self)
          ++ ["-A"; arch;
              "-DCMAKE_LIBRARY_OUTPUT_DIRECTORY_"
                +:+ (if debug self then "DEBUG" else "RELEASE")
                +:+ "=" +:+ output_dir self ext]).
Proof.
  intros Hm Hg Hk Hp Hd.
  split; [unfold consults_table; by rewrite Hg|].
  rewrite <- per_config_define.
  eapply configure_call_intro; [|done].
  eapply assemble_args_intro; [|by apply darwin_branch_off].
  unfold toolchain_branch, subscript.
  rewrite (msvc_eqb _ Hm), Hg, Hk.
  change (single_config "") with false.
  change (contains_arch "") with false. cbn [negb andb].
  by rewrite <- (assoc_L (++)).
Qed.

End Liveness.

Lemma plain_build_calls_witness :
  build_call (H := posix "/proj")
    (command_with "unix" "linux-x86_64" true (PyInt 8)) pyqubo_ext
    (host_with "linux" {["CMAKE_GENERATOR" := "Unix Makefiles"]})
  = Some ["-j8"].
Proof.
  destruct (plain_build_calls (H := posix "/proj")
              (command_with "unix" "linux-x86_64" true (PyInt 8))
              pyqubo_ext
              (host_with "linux" {["CMAKE_GENERATOR" := "Unix Makefiles"]}))
    as [_ Hb]; [done|reflexivity|by right|].
  rewrite Hb; reflexivity.
Defined.

Lemma msvc_default_generator_witness :
  configure_call (H := posix "/proj")
    (command_with "msvc" "win-arm64" true PyNone) pyqubo_ext
    (host_with "win32" ∅)
  = Some ["-DCMAKE_LIBRARY_OUTPUT_DIRECTORY=/proj/build/lib/";
          "-DPYTHON_EXECUTABLE=/usr/bin/python3";
          "-DPYQUBO_VERSION_INFO=1.4.0";
          "-DCMAKE_BUILD_TYPE=Debug";
          "-A"; "ARM64";
          "-DCMAKE_LIBRARY_OUTPUT_DIRECTORY_DEBUG=/proj/build/lib/"].
Proof.
  apply (msvc_default_generator (H := posix "/proj")
           (command_with "msvc" "win-arm64" true PyNone) pyqubo_ext
           (host_with "win32" ∅) "ARM64");
    first [reflexivity | by right].
Defined.
